(** * rtingsExtractor: the extraction-and-correction pipeline

    A shallow embedding of the two scripts of the repository,
    [(manual)rtingsParser_autoEq.py] (module [Manual]) and
    [autoExtractor.py] (module [AutoExtractor]), together with the parts of
    Python and of BeautifulSoup they rely on (modules [Python] and [Bs4]),
    followed by the properties of the pipeline.

    Conventions.
    - A Python [float] is an IEEE 754 binary64 value, modelled by the
      Standard Library's [spec_float] at precision 53 and maximal exponent
      1024; arithmetic is the library's correctly rounded arithmetic.
    - A Python [str] is a [string]; its characters are the code points
      U+0000 to U+00FF, on which the regular-expression class [\d] is
      exactly the ten digits [0-9].
    - Exceptions are explicit: a computation that may raise returns a
      [result]; a computation that prints or touches files is a [script].
    - Files are texts under path names. A path that names a file can be
      read, and every path can be opened for writing: directories,
      permissions and undecodable bytes, on which [open] raises, are not
      modelled. What is proved of a whole run therefore either speaks of a
      run whose files can be opened, or leaves the file operations as the
      calls they are. *)

From Stdlib Require Import ZArith QArith Qminmax Qabs Bool Ascii String List Lia.
From Stdlib Require Import DecimalString.
From Stdlib Require Import Sorting.Sorted Sorting.Permutation.
From Stdlib.Floats Require Import SpecFloat.
From stdpp Require Import gmap strings.

Set Warnings "-register-all".

(** ** Exceptions *)

Inductive exn := ValueError | OverflowError | FileNotFoundError.

Inductive result (A : Type) :=
  | Ok (a : A)
  | Raise (e : exn).
Arguments Ok {A} a.
Arguments Raise {A} e.

#[export] Instance result_ret : MRet result := @Ok.
#[export] Instance result_bind : MBind result := λ A B f m,
  match m with
  | Ok a => f a
  | Raise e => Raise e
  end.

(** [for x in l: s = body(s, x)], stopping at the first exception. *)
Fixpoint for_each {A S : Type} (body : S → A → result S) (l : list A) (s : S)
    : result S :=
  match l with
  | [] => Ok s
  | x :: l' => s' ← body s x; for_each body l' s'
  end.

(** ** The Python built-ins used by the scripts *)

Module Python.

Definition float64 : Type := spec_float.
Definition prec : Z := 53.
Definition emax : Z := 1024.

(** Numbers: the scripts handle [float]s and the [int] literals [32] and
    [-32]. *)
Inductive num :=
  | PyInt (n : Z)
  | PyFloat (x : float64).

(** What [clean_number] may be handed: a number or a text. *)
Inductive pyobject :=
  | Num (n : num)
  | Str (s : string).

(** *** Comparison

    Python compares an [int] and a [float] by their exact mathematical
    values; every comparison with a NaN is false. *)
Inductive xreal :=
  | XNaN
  | XInf (neg : bool)
  | XFin (q : Q).

Definition float_Q (neg : bool) (m : positive) (e : Z) : Q :=
  let n := if neg then Zneg m else Zpos m in
  match e with
  | Zneg k => n # (2 ^ k)
  | _ => inject_Z (n * 2 ^ e)
  end.

Definition float_value (x : float64) : xreal :=
  match x with
  | S754_nan => XNaN
  | S754_infinity s => XInf s
  | S754_zero _ => XFin 0
  | S754_finite s m e => XFin (float_Q s m e)
  end.

Definition num_value (a : num) : xreal :=
  match a with
  | PyInt n => XFin (inject_Z n)
  | PyFloat x => float_value x
  end.

Definition xcompare (a b : xreal) : option comparison :=
  match a, b with
  | XNaN, _ | _, XNaN => None
  | XInf s1, XInf s2 =>
      Some match s1, s2 with
           | true, false => Lt
           | false, true => Gt
           | _, _ => Eq
           end
  | XInf s, XFin _ => Some (if s then Lt else Gt)
  | XFin _, XInf s => Some (if s then Gt else Lt)
  | XFin p, XFin q => Some (p ?= q)%Q
  end.

Definition py_compare (a b : num) : option comparison :=
  xcompare (num_value a) (num_value b).

(** [a < b], [a > b], [a <= b], [a == b] *)
Definition py_lt (a b : num) : bool :=
  match py_compare a b with Some Lt => true | _ => false end.
Definition py_gt (a b : num) : bool :=
  match py_compare a b with Some Gt => true | _ => false end.
Definition py_le (a b : num) : bool :=
  match py_compare a b with Some (Lt | Eq) => true | _ => false end.
Definition py_eq (a b : num) : bool :=
  match py_compare a b with Some Eq => true | _ => false end.

(** [min(a, b)] keeps [a] unless [b < a]; [max(a, b)] keeps [a] unless
    [b > a]. *)
Definition py_min (a b : num) : num := if py_lt b a then b else a.
Definition py_max (a b : num) : num := if py_gt b a then b else a.

(** *** Arithmetic and conversions *)

(** [x - y] on floats. *)
Definition float_sub (x y : float64) : float64 := SFsub prec emax x y.

(** [float(n)] for an [int]: rounded to nearest even, [OverflowError]
    beyond the largest finite float. *)
Definition float_of_int (n : Z) : result float64 :=
  match binary_normalize prec emax n 0 false with
  | S754_infinity _ => Raise OverflowError
  | x => Ok x
  end.

(** [int(x)] for a float: truncation toward zero. *)
Definition int_of_float (x : float64) : result Z :=
  match x with
  | S754_nan => Raise ValueError
  | S754_infinity _ => Raise OverflowError
  | S754_zero _ => Ok 0%Z
  | S754_finite s m e => Ok (cond_Zopp s (Z.shiftl (Zpos m) e))
  end.

(** *** Text *)

Definition newline : string := String "010"%char EmptyString.

Definition is_empty (s : string) : bool :=
  match s with
  | EmptyString => true
  | String _ _ => false
  end.

Definition is_digit (c : ascii) : bool :=
  let n := N_of_ascii c in (48 <=? n)%N && (n <=? 57)%N.

(** [str.isspace] on the code points below 256. *)
Definition is_space (c : ascii) : bool :=
  let n := N_of_ascii c in
  ((9 <=? n)%N && (n <=? 13)%N) || ((28 <=? n)%N && (n <=? 32)%N)
  || (n =? 133)%N || (n =? 160)%N.

Fixpoint lstrip (s : string) : string :=
  match s with
  | EmptyString => EmptyString
  | String c s' => if is_space c then lstrip s' else s
  end.

(** [s.strip()] *)
Definition strip (s : string) : string :=
  String.rev (lstrip (String.rev (lstrip s))).

(** The characters the class [[^\d.-]] does not match. *)
Definition numeric_char (c : ascii) : bool :=
  is_digit c || Ascii.eqb c "."%char || Ascii.eqb c "-"%char.

(** [re.sub(r"[^\d.-]", "", s)] *)
Fixpoint re_sub_non_numeric (s : string) : string :=
  match s with
  | EmptyString => EmptyString
  | String c s' =>
      if numeric_char c then String c (re_sub_non_numeric s')
      else re_sub_non_numeric s'
  end.

Fixpoint all_digits (s : string) : bool :=
  match s with
  | EmptyString => true
  | String c s' => is_digit c && all_digits s'
  end.

(** The longest prefix of digits, and the rest. *)
Fixpoint span_digits (s : string) : string * string :=
  match s with
  | EmptyString => (EmptyString, EmptyString)
  | String c s' =>
      if is_digit c then
        let (ds, rest) := span_digits s' in (String c ds, rest)
      else (EmptyString, s)
  end.

Fixpoint digits_to_Z (acc : Z) (s : string) : Z :=
  match s with
  | EmptyString => acc
  | String c s' => digits_to_Z (10 * acc + (Z.of_N (N_of_ascii c) - 48)) s'
  end.

(** The float nearest to [(-1)^neg * int_part.frac_part], ties to even;
    an infinity beyond the largest finite float. *)
Definition decimal_to_float (neg : bool) (int_part frac_part : string)
    : float64 :=
  match digits_to_Z 0 (int_part +:+ frac_part) with
  | Zpos n =>
      SFdiv prec emax
        (S754_finite neg n 0)
        (S754_finite false (Z.to_pos (10 ^ Z.of_nat (String.length frac_part))) 0)
  | _ => S754_zero neg
  end.

(** [float(s)] for a text [s] made of digits, ['.'] and ['-'] only (what
    [re.sub] leaves): Python accepts an optional sign followed by digits
    with at most one point and at least one digit, and raises
    [ValueError] on anything else. *)
Definition float_of_string (s : string) : result float64 :=
  let (neg, body) :=
    match s with
    | String "-"%char rest => (true, rest)
    | _ => (false, s)
    end in
  let (int_part, rest) := span_digits body in
  match rest with
  | EmptyString =>
      if is_empty int_part then Raise ValueError
      else Ok (decimal_to_float neg int_part EmptyString)
  | String "."%char frac_part =>
      if all_digits frac_part
         && negb (is_empty int_part && is_empty frac_part)
      then Ok (decimal_to_float neg int_part frac_part)
      else Raise ValueError
  | _ => Raise ValueError
  end.

(** [str(n)] for an [int]. *)
Definition str_of_int (n : Z) : string := NilZero.string_of_int (Z.to_int n).

Definition digit_char (d : Z) : ascii := ascii_of_N (48 + Z.to_N d).

(** The integer nearest to [n / d], ties to even ([0 <= n], [0 < d]). *)
Definition round_half_even (n d : Z) : Z :=
  let q := (n / d)%Z in
  match (2 * (n mod d) ?= d)%Z with
  | Lt => q
  | Gt => (q + 1)%Z
  | Eq => if Z.even q then q else (q + 1)%Z
  end.

(** Sign, integer part, point and two digits of [h / 100]. *)
Definition fixed2 (neg : bool) (h : Z) : string :=
  (if neg then "-" else EmptyString)
  +:+ str_of_int (h / 100)
  +:+ String "."%char
        (String (digit_char (h / 10 mod 10))
           (String (digit_char (h mod 10)) EmptyString)).

(** The absolute value times 100, rounded to the nearest integer, ties to
    even. *)
Definition hundredths (m : positive) (e : Z) : Z :=
  match e with
  | Zneg k => round_half_even (Zpos m * 100) (2 ^ Zpos k)
  | _ => (Zpos m * 2 ^ e * 100)%Z
  end.

(** [f"{x:.2f}"] for a float *)
Definition format_2f_float (x : float64) : string :=
  match x with
  | S754_nan => "nan"
  | S754_infinity s => if s then "-inf" else "inf"
  | S754_zero s => fixed2 s 0
  | S754_finite s m e => fixed2 s (hundredths m e)
  end.

(** [f"{g:.2f}"]: an [int] is converted to a float first. *)
Definition format_2f (g : num) : result string :=
  match g with
  | PyFloat x => Ok (format_2f_float x)
  | PyInt n => x ← float_of_int n; Ok (format_2f_float x)
  end.

(** *** Sorting

    [l.sort(key=key)] is a stable sort that only asks [<] of the keys.
    The keys of the scripts are never NaN ([extract_rows_numeric] below),
    so [<] orders them totally and every stable sort returns the same
    list; this one inserts each element before the first one that is not
    smaller, and is stable ([list_sort_stable] below). *)
Fixpoint insort {A : Type} (key : A → float64) (x : A) (l : list A)
    : list A :=
  match l with
  | [] => [x]
  | y :: l' =>
      if py_lt (PyFloat (key y)) (PyFloat (key x))
      then y :: insort key x l'
      else x :: l
  end.

Definition list_sort {A : Type} (key : A → float64) (l : list A) : list A :=
  foldr (insort key) [] l.

End Python.

(** ** The BeautifulSoup operations used by the scripts *)

Module Bs4.
Import Python.

(** A parsed document: text nodes and tags with their children. *)
Inductive node :=
  | NavigableString (text : string)
  | Tag (name : string) (contents : list node).

#[export] Instance node_inhabited : Inhabited node :=
  populate (NavigableString EmptyString).

(** Everything below a node, in document order. *)
Fixpoint descendants (n : node) : list node :=
  match n with
  | NavigableString _ => []
  | Tag _ contents =>
      (fix below (l : list node) : list node :=
         match l with
         | [] => []
         | c :: l' => c :: descendants c ++ below l'
         end) contents
  end.

Definition is_tag (name : string) (n : node) : bool :=
  match n with
  | Tag name' _ => String.eqb name' name
  | NavigableString _ => false
  end.

(** [n.find_all(name)] *)
Definition find_all (name : string) (n : node) : list node :=
  List.filter (is_tag name) (descendants n).

(** [n.find(name)]: the first match, or [None]. *)
Definition find (name : string) (n : node) : option node :=
  head (find_all name n).

(** The text nodes of [n], in document order. *)
Fixpoint strings (n : node) : list string :=
  match n with
  | NavigableString text => [text]
  | Tag _ contents =>
      (fix below (l : list node) : list string :=
         match l with
         | [] => []
         | c :: l' => strings c ++ below l'
         end) contents
  end.

(** [n.get_text()] *)
Definition get_text (n : node) : string :=
  String.concat EmptyString (strings n).

(** [n.get_text(strip=True)]: every text node stripped, the empty ones
    left out. *)
Definition get_text_strip (n : node) : string :=
  String.concat EmptyString
    (List.filter (λ s, negb (is_empty s)) (map strip (strings n))).

End Bs4.

(** ** Console and files *)

Module World.
Import Python.

Definition raw_row : Type := float64 * float64 * float64.

(** What [print] was given: a rendered text, or one of the two values
    the scripts print through their [repr]. *)
Inductive printed :=
  | Line (text : string)
  | HeadersLine (label : string) (headers : list string)
  | RowsLine (rows : list raw_row).

Record world := World {
  console : list printed;
  files : gmap string string
}.

(** A script step: runs in a world, returns or raises, leaves a world. *)
Definition script (A : Type) : Type := world → result A * world.

#[export] Instance script_ret : MRet script := λ A a w, (Ok a, w).
#[export] Instance script_bind : MBind script := λ A B f m w,
  match m w with
  | (Ok a, w') => f a w'
  | (Raise e, w') => (Raise e, w')
  end.

Definition lift {A : Type} (r : result A) : script A := λ w, (r, w).

Definition print (p : printed) : script unit := λ w,
  (Ok (), World (console w ++ [p]) (files w)).

(** [os.path.exists(path)] *)
Definition exists_file (path : string) : script bool := λ w,
  (Ok (bool_decide (is_Some (files w !! path))), w).

(** [open(path, "r")] and reading the whole file: a path that names no
    file raises [FileNotFoundError]; a path that names one gives its text
    (the other failures of [open] and of decoding are not modelled). *)
Definition read_file (path : string) : script string := λ w,
  match files w !! path with
  | Some text => (Ok text, w)
  | None => (Raise FileNotFoundError, w)
  end.

(** [open(path, "w")]: the file is created or emptied (a path that cannot
    be opened for writing, on which [open] raises, is not modelled). *)
Definition open_w (path : string) : script unit := λ w,
  (Ok (), World (console w) (<[path := EmptyString]> (files w))).

(** [file.write(text)] on a file opened by [open_w]. *)
Definition write (path text : string) : script unit := λ w,
  (Ok (),
   World (console w)
     (<[path := default EmptyString (files w !! path) +:+ text]> (files w))).

(** [file.writelines(lines)] *)
Fixpoint writelines (path : string) (lines : list string) : script unit :=
  match lines with
  | [] => mret ()
  | line :: lines' => write path line;; writelines path lines'
  end.

End World.

(** ** [(manual)rtingsParser_autoEq.py] *)

Module Manual.
Import Python Bs4 World.

(** [clean_number(value)]: a number is converted by [float]; an empty or
    blank text gives [None]; any other text is stripped of its non-numeric
    characters and parsed, a [ValueError] giving [None]. *)
Definition clean_number (value : pyobject) : result (option float64) :=
  match value with
  | Num (PyInt n) => x ← float_of_int n; Ok (Some x)
  | Num (PyFloat x) => Ok (Some x)
  | Str s =>
      if is_empty s || is_empty (strip s) then Ok None
      else
        let num := re_sub_non_numeric s in
        match float_of_string num with
        | Ok x => Ok (Some x)
        | Raise ValueError => Ok None
        | Raise e => Raise e
        end
  end.

(** [scale_gain(gain)] *)
Definition scale_gain (gain : num) : num :=
  py_max (PyInt (-32)) (py_min (PyInt 32) gain).

(** [apply_eq_correction(data)]: the loop appends one pair per row. *)
Definition apply_eq_correction (data : list raw_row) : list (float64 * num) :=
  foldl
    (λ corrected_data row,
       let '(f, target, avg_response) := row in
       let eq_gain := PyFloat (float_sub target avg_response) in
       let eq_gain := scale_gain eq_gain in
       corrected_data ++ [(f, eq_gain)])
    [] data.

(** [f"{int(f)} {g:.2f}"] *)
Definition format_point (point : float64 * num) : result string :=
  let (f, g) := point in
  i ← int_of_float f;
  t ← format_2f g;
  Ok (str_of_int i +:+ " " +:+ t).

(** [save_graphic_eq_format(eq_data, output_file)]: the file is opened
    (and emptied) before the line is built. *)
Definition save_graphic_eq_format (eq_data : list (float64 * num))
    (output_file : string) : script unit :=
  open_w output_file;;
  points ← lift (mapM format_point eq_data);
  let eq_string := "GraphicEQ: " +:+ String.concat "; " points in
  write output_file eq_string;;
  write output_file newline.

(** The body of the loop over the [tr] elements. *)
Definition row_step (rows : list raw_row) (tr : node) : result (list raw_row) :=
  let cells := find_all "td" tr in
  if bool_decide (4 ≤ length cells) then
    freq ← clean_number (Str (get_text (cells !!! 0)));
    target ← clean_number (Str (get_text (cells !!! 1)));
    avg_response ← clean_number (Str (get_text (cells !!! 3)));
    match freq, target, avg_response with
    | Some f, Some t, Some a => Ok (rows ++ [(f, t, a)])
    | _, _, _ => Ok rows
    end
  else Ok rows.

(** [rows] after the loop over [table.find_all("tr")]. *)
Definition extract_rows (table : node) : result (list raw_row) :=
  for_each row_step (find_all "tr" table) [].

(** [rows.sort(key=lambda x: x[0])] *)
Definition sort_rows (rows : list raw_row) : list raw_row :=
  list_sort (λ x, x.1.1) rows.

Section Script.

(** [BeautifulSoup(file, "lxml")]: the HTML parser, left abstract. *)
Variable BeautifulSoup : string → node.

(** [extract_and_clean_rtings_data(html_file, output_file)] *)
Definition extract_and_clean_rtings_data (html_file output_file : string)
    : script unit :=
  text ← read_file html_file;
  let soup := BeautifulSoup text in
  match find "table" soup with
  | None => print (Line "No table found in the HTML file.")
  | Some table =>
      let headers := map get_text_strip (find_all "th" table) in
      print (HeadersLine "Table headers: " headers);;
      rows ← lift (extract_rows table);
      match rows with
      | [] => print (Line "No valid data found in the table.")
      | _ :: _ =>
          print (Line ("Extracted " +:+ str_of_int (Z.of_nat (length rows))
                       +:+ " rows of data:"));;
          print (RowsLine rows);;
          let rows := sort_rows rows in
          let eq_data := apply_eq_correction rows in
          save_graphic_eq_format eq_data output_file;;
          print (Line ("Cleaned and corrected data saved to " +:+ output_file))
      end
  end.

End Script.

End Manual.

(** ** [autoExtractor.py] *)

Module AutoExtractor.
Import Python Bs4 World.

(** [clean_number(value)] *)
Definition clean_number (value : pyobject) : result (option float64) :=
  match value with
  | Num (PyInt n) => x ← float_of_int n; Ok (Some x)
  | Num (PyFloat x) => Ok (Some x)
  | Str s =>
      if is_empty s || is_empty (strip s) then Ok None
      else
        let num := re_sub_non_numeric s in
        match float_of_string num with
        | Ok x => Ok (Some x)
        | Raise ValueError => Ok None
        | Raise e => Raise e
        end
  end.

(** [scale_gain(gain)] *)
Definition scale_gain (gain : num) : num :=
  py_max (PyInt (-32)) (py_min (PyInt 32) gain).

(** [apply_eq_correction(data)] *)
Definition apply_eq_correction (data : list raw_row) : list (float64 * num) :=
  foldl
    (λ corrected_data row,
       let '(freq, target, avg_response) := row in
       let eq_gain := PyFloat (float_sub target avg_response) in
       let eq_gain := scale_gain eq_gain in
       corrected_data ++ [(freq, eq_gain)])
    [] data.

(** The body of the loop over the [tr] elements. *)
Definition row_step (rows : list raw_row) (tr : node) : result (list raw_row) :=
  let cells := find_all "td" tr in
  if bool_decide (4 ≤ length cells) then
    freq ← clean_number (Str (get_text (cells !!! 0)));
    target ← clean_number (Str (get_text (cells !!! 1)));
    avg_response ← clean_number (Str (get_text (cells !!! 3)));
    match freq, target, avg_response with
    | Some f, Some t, Some a => Ok (rows ++ [(f, t, a)])
    | _, _, _ => Ok rows
    end
  else Ok rows.

(** [rows] after the loop over [table.find_all("tr")]. *)
Definition extract_rows (table : node) : result (list raw_row) :=
  for_each row_step (find_all "tr" table) [].

(** [rows.sort(key=lambda x: x[0])] *)
Definition sort_rows (rows : list raw_row) : list raw_row :=
  list_sort (λ x, x.1.1) rows.

Section Script.

(** [BeautifulSoup(file, "lxml")]: the HTML parser, left abstract. *)
Variable BeautifulSoup : string → node.

(** [str(x)] for a float, the shortest text that reads back as [x], left
    abstract. *)
Variable str_of_float : float64 → string.

(** [f"{g}"] for a gain. *)
Definition str_of_num (g : num) : string :=
  match g with
  | PyInt n => str_of_int n
  | PyFloat x => str_of_float x
  end.

(** [f"{f} {g}\n"] *)
Definition format_line (point : float64 * num) : string :=
  let (f, g) := point in
  str_of_float f +:+ " " +:+ str_of_num g +:+ newline.

(** [extract_and_clean_rtings_data(html_file, output_file)] *)
Definition extract_and_clean_rtings_data (html_file output_file : string)
    : script unit :=
  found ← exists_file html_file;
  if negb found then
    print (Line ("Error: File '" +:+ html_file +:+ "' not found."))
  else
    text ← read_file html_file;
    let soup := BeautifulSoup text in
    match find "table" soup with
    | None => print (Line "No table found in the HTML file.")
    | Some table =>
        let headers := map get_text_strip (find_all "th" table) in
        print (HeadersLine "Table Headers Found: " headers);;
        rows ← lift (extract_rows table);
        match rows with
        | [] => print (Line "Error: No valid frequency response data extracted.")
        | _ :: _ =>
            print (Line ("Extracted " +:+ str_of_int (Z.of_nat (length rows))
                         +:+ " data points."));;
            let rows := sort_rows rows in
            let eq_data := apply_eq_correction rows in
            open_w output_file;;
            writelines output_file (map format_line eq_data);;
            print (Line ("Processed data successfully saved to: " +:+ output_file))
        end
    end.

End Script.

End AutoExtractor.

(** ** The words of the specification

    Definitions that follow the specification rather than the code, for
    the code to be compared with. *)

Module Spec.
Import Python Bs4 World.

(** [max(-32, min(32, x))] on exact values. The specification speaks of
    real numbers; the infinities are clamped like any other value, and on
    NaN, where [min] and [max] have no mathematical meaning, the value is
    the one Python's [min] and [max] give. *)
Definition clamp (x : xreal) : xreal :=
  match x with
  | XFin q => XFin (Qmax (-32) (Qmin 32 q))
  | XInf true => XFin (-32)
  | XInf false => XFin 32
  | XNaN => XFin 32
  end.

(** A gain in the closed interval from -32 to 32. *)
Definition in_range (g : num) : Prop :=
  py_le (PyInt (-32)) g = true ∧ py_le g (PyInt 32) = true.

(** The integer part of a rational, rounding toward zero. *)
Definition truncate (q : Q) : Z := Z.quot (Qnum q) (Zpos (Qden q)).

(** The float written [s] in a Python source text. *)
Definition lit (s : string) : float64 :=
  match float_of_string s with
  | Ok x => x
  | Raise _ => S754_nan
  end.

(** What a cell parses to: its text without the characters that are
    not a digit, ['.'] or ['-'], read as a float; [None] when that fails. *)
Definition parsed (cell : node) : option float64 :=
  match float_of_string (re_sub_non_numeric (get_text cell)) with
  | Ok x => Some x
  | Raise _ => None
  end.

(** The row a [tr] element gives: one for a [tr] of at least four cells
    whose cells 0, 1 and 3 all parse, none otherwise. *)
Definition emitted_row (tr : node) : option raw_row :=
  match find_all "td" tr with
  | cell0 :: cell1 :: _ :: cell3 :: _ =>
      match parsed cell0, parsed cell1, parsed cell3 with
      | Some frequency, Some target, Some measured =>
          Some (frequency, target, measured)
      | _, _, _ => None
      end
  | _ => None
  end.

(** [key(a) <= key(b)], and a key that is a number. *)
Definition key_le {A : Type} (key : A → float64) (a b : A) : Prop :=
  py_le (PyFloat (key a)) (PyFloat (key b)) = true.
Definition key_number {A : Type} (key : A → float64) (a : A) : Prop :=
  key a ≠ S754_nan.

(** [frequency <= frequency'] on rows and on corrected points. *)
Definition row_le (r r' : raw_row) : Prop :=
  py_le (PyFloat r.1.1) (PyFloat r'.1.1) = true.
Definition point_le (p p' : float64 * num) : Prop :=
  py_le (PyFloat p.1) (PyFloat p'.1) = true.

(** [frequency > 0] *)
Definition positive_frequency (r : raw_row) : Prop :=
  py_gt (PyFloat r.1.1) (PyInt 0) = true.

(** All three fields are numbers. *)
Definition numeric_row (r : raw_row) : Prop :=
  r.1.1 ≠ S754_nan ∧ r.1.2 ≠ S754_nan ∧ r.2 ≠ S754_nan.

(** A float that is a real number: neither an infinity nor NaN. *)
Definition finite (x : float64) : bool :=
  match x with
  | S754_zero _ | S754_finite _ _ _ => true
  | S754_infinity _ | S754_nan => false
  end.

(** A CorrectionPoint: a real frequency and a gain between -32 and 32. *)
Definition correction_point (point : float64 * num) : Prop :=
  finite point.1 = true ∧ in_range point.2.

(** A text with exactly two decimal digits: an optional minus sign, at
    least one digit, a point, two digits. *)
Definition two_decimals (text : string) : Prop :=
  ∃ (sign digits : string) (d1 d2 : ascii),
    text = sign +:+ digits +:+ String "."%char (String d1 (String d2 EmptyString))
    ∧ (sign = EmptyString ∨ sign = "-"%string)
    ∧ is_empty digits = false
    ∧ all_digits digits = true
    ∧ is_digit d1 = true
    ∧ is_digit d2 = true.

(** A point rendered as its frequency truncated to an integer, a space,
    and its gain with two decimal digits. *)
Definition rendered (point : float64 * num) (text : string) : Prop :=
  ∃ (frequency : Q) (gain_text : string),
    float_value point.1 = XFin frequency
    ∧ format_2f point.2 = Ok gain_text
    ∧ two_decimals gain_text
    ∧ text = str_of_int (truncate frequency) +:+ " " +:+ gain_text.

(** A text without a line break. *)
Fixpoint no_newline (s : string) : bool :=
  match s with
  | EmptyString => true
  | String c s' => negb (Ascii.eqb c "010"%char) && no_newline s'
  end.

(** The points a script computes from a document and hands to its
    serializer, when it gets that far: the corrected, sorted rows of the
    first table, provided there is a table and it has a valid row. *)
Definition pipeline
    (extract_rows : node → result (list raw_row))
    (sort_rows : list raw_row → list raw_row)
    (apply_eq_correction : list raw_row → list (float64 * num))
    (soup : node) : option (list (float64 * num)) :=
  match find "table" soup with
  | None => None
  | Some table =>
      match extract_rows table with
      | Ok (row :: rows) => Some (apply_eq_correction (sort_rows (row :: rows)))
      | _ => None
      end
  end.

End Spec.

(** ** Sample documents *)

Module Sample.
Import Python Bs4 World.

Definition td (text : string) : node := Tag "td" [NavigableString text].
Definition th (text : string) : node := Tag "th" [NavigableString text].

Definition header : node :=
  Tag "tr" [th "Frequency"; th "Target"; th "Left"; th "Average"].

Definition page (table : node) : node :=
  Tag "html" [Tag "body" [table]].

(** A table of three measurements, out of order, and its rows. *)
Definition measured_table : node :=
  Tag "table"
    [header;
     Tag "tr" [td "54 Hz"; td "1.0 dB"; td "n/a"; td "4.2 dB"];
     Tag "tr" [td "20 Hz"; td "40"; td "0"; td "-10"];
     Tag "tr" [td "20 Hz"; td "5.5"; td "0"; td "0"]].

Definition measured_rows : list raw_row :=
  [(Spec.lit "54", Spec.lit "1.0", Spec.lit "4.2");
   (Spec.lit "20", Spec.lit "40", Spec.lit "-10");
   (Spec.lit "20", Spec.lit "5.5", Spec.lit "0")].

(** A table whose only data row has a negative frequency. *)
Definition negative_table : node :=
  Tag "table" [header; Tag "tr" [td "-5"; td "2"; td "0"; td "1.5"]].

Definition negative_rows : list raw_row :=
  [(Spec.lit "-5", Spec.lit "2", Spec.lit "1.5")].

(** A table with its header row only. *)
Definition header_only_table : node := Tag "table" [header].

(** A document without a table. *)
Definition no_table_page : node :=
  Tag "html" [Tag "body" [Tag "p" [NavigableString "Nothing here."]]].

(** The two points of the specification's serialization example. *)
Definition two_points : list (float64 * num) :=
  [(Spec.lit "20", PyFloat (Spec.lit "5.5"));
   (Spec.lit "54", PyFloat (Spec.lit "-3.2"))].

(** A world holding one input file. *)
Definition world_with (path text : string) : world :=
  World [] {[path := text]}.

End Sample.

(** ** Further notions

    Vocabulary for the properties beyond the specification's. *)

Module Notions.
Import Python Bs4 World.

(** The sign bit of a float (clear on NaN). *)
Definition negative (x : float64) : bool :=
  match x with
  | S754_zero s | S754_infinity s | S754_finite s _ _ => s
  | S754_nan => false
  end.

(** A text that starts with a minus sign. *)
Definition leading_minus (s : string) : bool :=
  match s with
  | String "-"%char _ => true
  | _ => false
  end.

(** A text without its first character. *)
Definition tail (s : string) : string :=
  match s with
  | EmptyString => EmptyString
  | String _ s' => s'
  end.

(** How often a character occurs in a text. *)
Fixpoint count_char (c : ascii) (s : string) : nat :=
  match s with
  | EmptyString => 0
  | String c' s' => (if Ascii.eqb c' c then 1 else 0) + count_char c s'
  end.

(** The cleaned text of a cell is malformed beyond repair: a minus sign
    after its first character, or more than one point. *)
Definition malformed (cleaned : string) : Prop :=
  0 < count_char "-" (tail cleaned) ∨ 2 ≤ count_char "." cleaned.

(** A written point that starts with the integer [i]: the digits of [i],
    a space, and the text of the gain. *)
Definition starts_with_int (i : Z) (text : string) : Prop :=
  ∃ gain_text : string, text = str_of_int i +:+ " " +:+ gain_text.

(** [n] copies of a character. *)
Fixpoint repeat_char (c : ascii) (n : nat) : string :=
  match n with
  | 0 => EmptyString
  | S n' => String c (repeat_char c n')
  end.

(** A table with a frequency of four hundred digits, beyond every finite
    float, and its rows. *)
Definition overflow_table : node :=
  Tag "table"
    [Sample.header;
     Tag "tr" [Sample.td "20"; Sample.td "5.5"; Sample.td "0"; Sample.td "0"];
     Tag "tr" [Sample.td (repeat_char "9" 400); Sample.td "1"; Sample.td "0";
               Sample.td "2"]].

Definition overflow_rows : list raw_row :=
  [(Spec.lit "20", Spec.lit "5.5", Spec.lit "0");
   (S754_infinity false, Spec.lit "1", Spec.lit "2")].

End Notions.

(** ** The scripts' main blocks *)

Module Main.
Import Python Bs4 World.

(** [s.lower()] on the code points below 256: the letters A to Z and the
    accented capitals become their small letters. *)
Definition lower_char (c : ascii) : ascii :=
  let n := N_of_ascii c in
  if ((65 <=? n)%N && (n <=? 90)%N)
     || ((192 <=? n)%N && (n <=? 222)%N && negb (n =? 215)%N)
  then ascii_of_N (n + 32)
  else c.

Fixpoint lower (s : string) : string :=
  match s with
  | EmptyString => EmptyString
  | String c s' => String (lower_char c) (lower s')
  end.

(** What appears on the terminal: a printed line, or the prompt of an
    [input]. *)
Inductive shown :=
  | Printed (p : printed)
  | Prompt (text : string).

(** How a main block ends: by reaching its end, by an exception of the
    pipeline, by [EOFError] when [input] finds nothing to read, or by
    [exit(message)]. *)
Inductive ending :=
  | Finished
  | Uncaught (e : exn)
  | EOFError
  | SystemExit (message : string).

(** The lines still to be read, the terminal so far, the files. *)
Record session := Session {
  stdin : list string;
  screen : list shown;
  disk : gmap string string
}.

Definition say (text : string) (s : session) : session :=
  Session (stdin s) (screen s ++ [Printed (Line text)]) (disk s).

(** [input(prompt)]: the prompt is shown, a line is read if there is one. *)
Definition input (prompt : string) (s : session) : option string * session :=
  match stdin s with
  | [] => (None, Session [] (screen s ++ [Prompt prompt]) (disk s))
  | line :: rest =>
      (Some line, Session rest (screen s ++ [Prompt prompt]) (disk s))
  end.

(** A call of the pipeline from a main block. *)
Definition call (run : script ()) (s : session) : ending * session :=
  let (r, w) := run (World [] (disk s)) in
  (match r with
   | Ok _ => Finished
   | Raise e => Uncaught e
   end,
   Session (stdin s) (screen s ++ map Printed (console w)) (files w)).

(** The main block of [(manual)rtingsParser_autoEq.py]. *)
Definition input_html : string :=
  "/storage/emulated/0/Download/Soundbar.html".
Definition output_txt : string :=
  "/storage/emulated/0/Download/graphic_eq_output.txt".

Definition manual_main (BeautifulSoup : string → node) (s : session)
    : ending * session :=
  call (Manual.extract_and_clean_rtings_data BeautifulSoup input_html
          output_txt) s.

(** The main block of [autoExtractor.py]. *)
Definition auto_main (BeautifulSoup : string → node)
    (str_of_float : float64 → string) (s : session) : ending * session :=
  let s := say (newline +:+ "--- AutoEQ Script for RTINGS Data ---"
                +:+ newline) s in
  match input "Do you already have the RTINGS HTML file? (yes/no): " s with
  | (None, s) => (EOFError, s)
  | (Some answer, s) =>
      let user_input := lower (strip answer) in
      if String.eqb user_input "no" then
        let s :=
          say (newline
               +:+ "1. Visit RTINGS.com and find your headphone's frequency response page.")
            s in
        let s :=
          say "2. Right-click, select 'Save As', and save the page as an HTML file."
            s in
        let s :=
          say ("3. Place the saved file in the same directory as this script."
               +:+ newline) s in
        (SystemExit "Restart this script after saving the HTML file.", s)
      else
        match input "Enter the path to your RTINGS HTML file: " s with
        | (None, s) => (EOFError, s)
        | (Some path, s) =>
            let input_html := strip path in
            match
              input "Enter the output filename (e.g., jamesdsp_eq.txt): " s
            with
            | (None, s) => (EOFError, s)
            | (Some name, s) =>
                let output_txt := strip name in
                call (AutoExtractor.extract_and_clean_rtings_data
                        BeautifulSoup str_of_float input_html output_txt) s
            end
        end
  end.

End Main.

(** ** The scripts past the extraction

    What each script goes through on a document whose first table is
    [table], once the loop over its rows has left [rows] and the points
    [eq_data] are ready to be written: its messages and its writing of
    [eq_data], in the order of the source, with the file operations left
    as the calls they are. They serve to say of a run which points it
    writes. *)

Module Steps.
Import Python Bs4 World.

(** The first script: the [print] calls of its lines 20, 37 and 38, the
    call of [save_graphic_eq_format] and the last [print]. *)
Definition manual_steps (table : node) (rows : list raw_row)
    (eq_data : list (float64 * num)) (output_file : string) : script unit :=
  print (HeadersLine "Table headers: "
           (map get_text_strip (find_all "th" table)));;
  print (Line ("Extracted " +:+ str_of_int (Z.of_nat (length rows))
               +:+ " rows of data:"));;
  print (RowsLine rows);;
  Manual.save_graphic_eq_format eq_data output_file;;
  print (Line ("Cleaned and corrected data saved to " +:+ output_file)).

(** The second script: the [print] calls of its lines 28 and 47, the
    [open] and [writelines] of its lines 56 and 57 and the last [print]. *)
Definition auto_steps (str_of_float : float64 → string) (table : node)
    (rows : list raw_row) (eq_data : list (float64 * num))
    (output_file : string) : script unit :=
  print (HeadersLine "Table Headers Found: "
           (map get_text_strip (find_all "th" table)));;
  print (Line ("Extracted " +:+ str_of_int (Z.of_nat (length rows))
               +:+ " data points."));;
  open_w output_file;;
  writelines output_file
    (map (AutoExtractor.format_line str_of_float) eq_data);;
  print (Line ("Processed data successfully saved to: " +:+ output_file)).

End Steps.

(** * Properties *)

Import Python Bs4 World.

(** ** Comparison of numbers *)

Lemma xcompare_antisym (a b : xreal) :
  xcompare b a = option_map CompOpp (xcompare a b).
Proof.
  destruct a as [|[]|p], b as [|[]|q]; simpl; try reflexivity.
  by rewrite <- Qcompare_antisym.
Qed.

Lemma py_gt_lt (a b : num) : py_gt a b = py_lt b a.
Proof.
  unfold py_gt, py_lt, py_compare.
  rewrite (xcompare_antisym (num_value a) (num_value b)).
  by destruct (xcompare _ _) as [[]|].
Qed.

Lemma py_lt_le (a b : num) : py_lt a b = true → py_le a b = true.
Proof. unfold py_lt, py_le. by destruct (py_compare a b) as [[]|]. Qed.

Lemma py_le_refl (a : num) : num_value a ≠ XNaN → py_le a a = true.
Proof.
  unfold py_le, py_compare. destruct (num_value a) as [|[]|q]; simpl; try done.
  intros _. by rewrite (proj1 (Qeq_alt q q) (Qeq_refl q)).
Qed.

(** Without NaN, [<] is total: what is not smaller is at least as big. *)
Lemma py_lt_false_le (a b : num) :
  num_value a ≠ XNaN → num_value b ≠ XNaN →
  py_lt a b = false → py_le b a = true.
Proof.
  unfold py_lt, py_le, py_compare. intros Ha Hb.
  rewrite (xcompare_antisym (num_value a) (num_value b)).
  destruct (num_value a) as [|[]|p], (num_value b) as [|[]|q]; simpl; try done.
  by destruct (p ?= q)%Q.
Qed.

(** ** The Corrector *)

Lemma scale_gain_in_range (gain : num) : Spec.in_range (Manual.scale_gain gain).
Proof.
  unfold Spec.in_range, Manual.scale_gain, py_max, py_min.
  rewrite !py_gt_lt.
  destruct (py_lt gain (PyInt 32)) eqn:Hhi.
  - destruct (py_lt (PyInt (-32)) gain) eqn:Hlo.
    + split; by apply py_lt_le.
    + done.
  - done.
Qed.

Lemma scale_gain_value (x : float64) :
  num_value (Manual.scale_gain (PyFloat x)) = Spec.clamp (float_value x).
Proof.
  unfold Manual.scale_gain, py_max, py_min.
  rewrite !py_gt_lt. unfold py_lt, py_compare. simpl num_value.
  destruct (float_value x) as [|[]|q] eqn:Hx; simpl; rewrite ?Hx; try done.
  unfold Qmin, Qmax, GenericMinMax.gmin, GenericMinMax.gmax, inject_Z.
  rewrite <- (Qcompare_antisym q 32).
  destruct (q ?= 32)%Q eqn:Hhi; simpl; rewrite ?Hx; simpl; try done.
  by destruct (-32 ?= q)%Q; simpl; rewrite ?Hx.
Qed.

Lemma manual_apply_eq_correction_map (data : list raw_row) :
  Manual.apply_eq_correction data =
  map (λ row : raw_row,
         (row.1.1, Manual.scale_gain (PyFloat (float_sub row.1.2 row.2))))
      data.
Proof.
  unfold Manual.apply_eq_correction.
  rewrite <- (app_nil_l (map _ data)). generalize (@nil (float64 * num)) at 2 3.
  induction data as [|[[f t] a] data IH]; intros acc; simpl.
  - by rewrite app_nil_r.
  - rewrite IH. by rewrite <- app_assoc.
Qed.

Lemma auto_apply_eq_correction_map (data : list raw_row) :
  AutoExtractor.apply_eq_correction data =
  map (λ row : raw_row,
         (row.1.1, AutoExtractor.scale_gain (PyFloat (float_sub row.1.2 row.2))))
      data.
Proof.
  unfold AutoExtractor.apply_eq_correction.
  rewrite <- (app_nil_l (map _ data)). generalize (@nil (float64 * num)) at 2 3.
  induction data as [|[[f t] a] data IH]; intros acc; simpl.
  - by rewrite app_nil_r.
  - rewrite IH. by rewrite <- app_assoc.
Qed.

(** C1. For every row [(frequency, target, measured)] the Corrector
    produces the gain [max(-32, min(32, target - measured))]: as the Python
    expression, and as the exact value of the result; every gain lies
    between -32 and 32. The Corrector is a total function: it returns for
    every list of rows, infinities and NaN included. *)
Theorem apply_eq_correction_clamps (data : list raw_row) :
  Forall2
    (λ (row : raw_row) (point : float64 * num),
       let '(frequency, target, measured) := row in
       let difference := float_sub target measured in
       point.2 = py_max (PyInt (-32)) (py_min (PyInt 32) (PyFloat difference))
       ∧ num_value point.2 = Spec.clamp (float_value difference)
       ∧ Spec.in_range point.2)
    data (Manual.apply_eq_correction data).
Proof.
  rewrite manual_apply_eq_correction_map.
  induction data as [|[[f t] a] data IH]; simpl; constructor; try done.
  split; [done|]. split; [apply scale_gain_value | apply scale_gain_in_range].
Qed.

(** The out-of-range scenario of the specification: target 40 and
    measured -10 give the raw gain 50, clamped to 32 and written [32.00]. *)
Example apply_eq_correction_out_of_range :
  Manual.apply_eq_correction [(Spec.lit "20", Spec.lit "40", Spec.lit "-10")]
  = [(Spec.lit "20", PyInt 32)]
  ∧ py_eq (PyFloat (float_sub (Spec.lit "40") (Spec.lit "-10"))) (PyInt 50)
    = true
  ∧ format_2f (PyInt 32) = Ok "32.00"%string.
Proof. by vm_compute. Qed.

(** C10. The Corrector returns as many points as it was given rows, in the
    same order, the i-th point carrying the i-th frequency unchanged; in
    both scripts. *)
Theorem apply_eq_correction_frame (data : list raw_row) :
  (length (Manual.apply_eq_correction data) = length data
   ∧ map fst (Manual.apply_eq_correction data) = map (λ row, row.1.1) data)
  ∧ (length (AutoExtractor.apply_eq_correction data) = length data
     ∧ map fst (AutoExtractor.apply_eq_correction data)
       = map (λ row, row.1.1) data).
Proof.
  rewrite manual_apply_eq_correction_map, auto_apply_eq_correction_map.
  rewrite !length_map, !map_map. done.
Qed.

(** ** Number cleaning *)

Lemma is_space_not_numeric (c : ascii) :
  is_space c = true → numeric_char c = false.
Proof.
  destruct c as [[] [] [] [] [] [] [] []]; vm_compute; congruence.
Qed.

Lemma re_sub_lstrip (s : string) :
  re_sub_non_numeric (lstrip s) = re_sub_non_numeric s.
Proof.
  induction s as [|c s IH]; simpl; [done|].
  destruct (is_space c) eqn:Hc; [|done].
  by rewrite (is_space_not_numeric c Hc).
Qed.

Lemma re_sub_rev_app_empty (s t : string) :
  re_sub_non_numeric (String.rev_app s t) = EmptyString →
  re_sub_non_numeric s = EmptyString ∧ re_sub_non_numeric t = EmptyString.
Proof.
  revert t. induction s as [|c s IH]; intros t; simpl; [done|].
  intros H. destruct (IH _ H) as [Hs Ht]. simpl in Ht.
  destruct (numeric_char c); [done|]. done.
Qed.

(** A blank text has nothing left once cleaned. *)
Lemma re_sub_blank (s : string) :
  is_empty (strip s) = true → re_sub_non_numeric s = EmptyString.
Proof.
  intros H. assert (Hs : strip s = EmptyString) by by destruct (strip s).
  apply (f_equal re_sub_non_numeric) in Hs. unfold strip, String.rev in Hs.
  apply re_sub_rev_app_empty in Hs as [Hs _]. rewrite re_sub_lstrip in Hs.
  apply re_sub_rev_app_empty in Hs as [Hs _]. by rewrite re_sub_lstrip in Hs.
Qed.

(** Parsing only ever raises [ValueError]. *)
Lemma float_of_string_raises (s : string) (e : exn) :
  float_of_string s = Raise e → e = ValueError.
Proof.
  unfold float_of_string.
  destruct (match s with String "-"%char rest => _ | _ => _ end) as [neg body].
  destruct (span_digits body) as [int_part rest].
  destruct rest as [|c rest].
  - destruct (is_empty int_part); congruence.
  - destruct (Ascii.eqb c "."%char) eqn:Hc.
    + apply Ascii.eqb_eq in Hc as ->.
      destruct (_ && _); congruence.
    + destruct c as [[] [] [] [] [] [] [] []]; try congruence; done.
Qed.

Lemma manual_clean_number_str (s : string) :
  Manual.clean_number (Str s) =
  Ok match float_of_string (re_sub_non_numeric s) with
     | Ok x => Some x
     | Raise _ => None
     end.
Proof.
  unfold Manual.clean_number.
  destruct (is_empty s || is_empty (strip s)) eqn:Hblank.
  - assert (re_sub_non_numeric s = EmptyString) as ->; [|done].
    apply orb_true_iff in Hblank as [Hs|Hs]; [by destruct s|].
    by apply re_sub_blank.
  - destruct (float_of_string _) as [x|e] eqn:Hparse; [done|].
    by rewrite (float_of_string_raises _ _ Hparse).
Qed.

Lemma auto_clean_number_eq (value : pyobject) :
  AutoExtractor.clean_number value = Manual.clean_number value.
Proof. done. Qed.

(** C4. On every text, [clean_number] removes the characters that are not
    a digit, ['.'] or ['-'] and parses what remains as a float, returning
    [None] when that fails, as it does on the empty text. It sends ["54"] to
    54.0, the empty text to [None] and ["26.81dB"] to 26.81, the float
    nearest to 2681/100. *)
Theorem clean_number_spec :
  (∀ s : string,
     Manual.clean_number (Str s) =
     Ok match float_of_string (re_sub_non_numeric s) with
        | Ok x => Some x
        | Raise _ => None
        end)
  ∧ float_of_string EmptyString = Raise ValueError
  ∧ Manual.clean_number (Str EmptyString) = Ok None
  ∧ Manual.clean_number (Str "54")
    = Ok (Some (S754_finite false 7599824371187712 (-47)))
  ∧ py_eq (PyFloat (S754_finite false 7599824371187712 (-47))) (PyInt 54)
    = true
  ∧ re_sub_non_numeric "26.81dB" = "26.81"%string
  ∧ Manual.clean_number (Str "26.81dB")
    = Ok (Some (S754_finite false 7546344125612687 (-48)))
  ∧ (Qabs (float_Q false 7546344125612687 (-48) - (2681 # 100)) <= 1 # (2 ^ 49))%Q.
Proof.
  split; [apply manual_clean_number_str|].
  repeat split; try by vm_compute.
Qed.

(** C7 as stated fails: ["1-2"] is not cleaned to -1. *)
Lemma clean_number_1_2_not_minus_one :
  Manual.clean_number (Str "1-2") ≠ Ok (Some (Spec.lit "-1")).
Proof. by vm_compute. Qed.

(** C7, amended. The cleaning keeps a ['-'] wherever it stands, so the text
    ["1-2"] is left as it is; the float parser rejects it and
    [clean_number] returns [None]. *)
Theorem clean_number_1_2_none :
  re_sub_non_numeric "1-2" = "1-2"%string
  ∧ float_of_string "1-2" = Raise ValueError
  ∧ Manual.clean_number (Str "1-2") = Ok None.
Proof. by vm_compute. Qed.

(** ** Parsed numbers are never NaN *)

Lemma shr_1_nonneg (mrs : shr_record) :
  (0 ≤ shr_m mrs)%Z → (0 ≤ shr_m (shr_1 mrs))%Z.
Proof. destruct mrs as [[|[p|p|]|p] r s]; simpl; lia. Qed.

Lemma iter_shr_1_nonneg (p : positive) (mrs : shr_record) :
  (0 ≤ shr_m mrs)%Z → (0 ≤ shr_m (SpecFloat.iter_pos shr_1 p mrs))%Z.
Proof.
  revert mrs. induction p as [p IH|p IH|]; intros mrs H; simpl.
  - apply IH, IH. by apply shr_1_nonneg.
  - by apply IH, IH.
  - by apply shr_1_nonneg.
Qed.

Lemma shr_fexp_nonneg (m e : Z) (l : location) :
  (0 ≤ m)%Z → (0 ≤ shr_m (shr_fexp prec emax m e l).1)%Z.
Proof.
  intros Hm. unfold shr_fexp, shr.
  assert (0 ≤ shr_m (shr_record_of_loc m l))%Z by by destruct l as [|[]].
  destruct (_ - e)%Z; simpl; try done. by apply iter_shr_1_nonneg.
Qed.

Lemma round_nearest_even_nonneg (m : Z) (l : location) :
  (0 ≤ m)%Z → (0 ≤ round_nearest_even m l)%Z.
Proof.
  intros Hm. destruct l as [|[]]; simpl; try lia. destruct (Z.even m); lia.
Qed.

Lemma binary_round_aux_not_nan (s : bool) (m e : Z) (l : location) :
  (0 ≤ m)%Z → binary_round_aux prec emax s m e l ≠ S754_nan.
Proof.
  intros Hm. unfold binary_round_aux.
  pose proof (shr_fexp_nonneg m e l Hm) as H1.
  destruct (shr_fexp prec emax m e l) as [mrs' e']. simpl in H1.
  pose proof (shr_fexp_nonneg _ e' loc_Exact
                (round_nearest_even_nonneg _ (loc_of_shr_record mrs') H1)) as H2.
  destruct (shr_fexp prec emax _ e' loc_Exact) as [mrs'' e'']. simpl in H2.
  destruct (shr_m mrs''); [done| |lia]. by destruct (_ <=? _)%Z.
Qed.

Lemma decimal_to_float_not_nan (neg : bool) (int_part frac_part : string) :
  decimal_to_float neg int_part frac_part ≠ S754_nan.
Proof.
  unfold decimal_to_float. destruct (digits_to_Z 0 _) as [|n|n]; try done.
  unfold SFdiv, SFdiv_core_binary.
  set (d := Z.to_pos _). set (e' := Z.min _ _). set (m' := match _ with Z0 => _ | _ => _ end).
  assert (0 ≤ m')%Z as Hm'.
  { subst m'. destruct (0 - 0 - e')%Z; try lia. apply Z.shiftl_nonneg. lia. }
  destruct (Z.div_eucl m' (Z.pos d)) as [q r] eqn:Hqr.
  apply binary_round_aux_not_nan.
  assert (q = (m' / Z.pos d)%Z) as -> by (unfold Z.div; by rewrite Hqr).
  apply Z.div_pos; lia.
Qed.

Lemma float_of_string_not_nan (s : string) (x : float64) :
  float_of_string s = Ok x → x ≠ S754_nan.
Proof.
  unfold float_of_string.
  destruct (match s with String "-"%char rest => _ | _ => _ end) as [neg body].
  destruct (span_digits body) as [int_part rest].
  destruct rest as [|c rest].
  - destruct (is_empty int_part); [done|].
    intros [= <-]. apply decimal_to_float_not_nan.
  - destruct (Ascii.eqb c "."%char) eqn:Hc.
    + apply Ascii.eqb_eq in Hc as ->.
      destruct (_ && _); [|done]. intros [= <-]. apply decimal_to_float_not_nan.
    + destruct c as [[] [] [] [] [] [] [] []]; try done.
Qed.

Lemma parsed_not_nan (cell : node) (x : float64) :
  Spec.parsed cell = Some x → x ≠ S754_nan.
Proof.
  unfold Spec.parsed. destruct (float_of_string _) as [y|] eqn:H; [|done].
  intros [= <-]. by apply float_of_string_not_nan in H.
Qed.

Lemma emitted_row_numeric (tr : node) (r : raw_row) :
  Spec.emitted_row tr = Some r → Spec.numeric_row r.
Proof.
  unfold Spec.emitted_row.
  destruct (find_all "td" tr) as [|c0 [|c1 [|c2 [|c3 rest]]]]; try done.
  destruct (Spec.parsed c0) as [f|] eqn:H0; [|done].
  destruct (Spec.parsed c1) as [t|] eqn:H1; [|done].
  destruct (Spec.parsed c3) as [a|] eqn:H3; [|done].
  intros [= <-]. unfold Spec.numeric_row. simpl.
  repeat split; eapply parsed_not_nan; eassumption.
Qed.

(** ** The Extractor *)

Lemma manual_row_step_spec (rows : list raw_row) (tr : node) :
  Manual.row_step rows tr =
  Ok match Spec.emitted_row tr with
     | Some row => rows ++ [row]
     | None => rows
     end.
Proof.
  unfold Manual.row_step, Spec.emitted_row, Spec.parsed.
  destruct (find_all "td" tr) as [|c0 [|c1 [|c2 [|c3 rest]]]];
    try (rewrite bool_decide_eq_false_2 by (simpl; lia); done).
  rewrite bool_decide_eq_true_2 by (simpl; lia).
  rewrite !manual_clean_number_str.
  change ((c0 :: c1 :: c2 :: c3 :: rest) !!! 0) with c0.
  change ((c0 :: c1 :: c2 :: c3 :: rest) !!! 1) with c1.
  change ((c0 :: c1 :: c2 :: c3 :: rest) !!! 3) with c3.
  destruct (float_of_string (re_sub_non_numeric (get_text c0)));
    destruct (float_of_string (re_sub_non_numeric (get_text c1)));
    destruct (float_of_string (re_sub_non_numeric (get_text c3))); done.
Qed.

Lemma auto_row_step_eq (rows : list raw_row) (tr : node) :
  AutoExtractor.row_step rows tr = Manual.row_step rows tr.
Proof. done. Qed.

Lemma for_each_row_step (trs : list node) (rows : list raw_row) :
  for_each Manual.row_step trs rows = Ok (rows ++ omap Spec.emitted_row trs).
Proof.
  revert rows. induction trs as [|tr trs IH]; intros rows; simpl.
  - by rewrite app_nil_r.
  - rewrite manual_row_step_spec. simpl. rewrite IH.
    destruct (Spec.emitted_row tr); [|done]. by rewrite <- app_assoc.
Qed.

Lemma manual_extract_rows_spec (table : node) :
  Manual.extract_rows table = Ok (omap Spec.emitted_row (find_all "tr" table)).
Proof. unfold Manual.extract_rows. by rewrite for_each_row_step. Qed.

Lemma auto_extract_rows_eq (table : node) :
  AutoExtractor.extract_rows table = Manual.extract_rows table.
Proof. done. Qed.

Lemma emitted_row_iff (tr : node) (frequency target measured : float64) :
  Spec.emitted_row tr = Some (frequency, target, measured)
  ↔ ∃ cell0 cell1 cell2 cell3 others,
      find_all "td" tr = cell0 :: cell1 :: cell2 :: cell3 :: others
      ∧ Manual.clean_number (Str (get_text cell0)) = Ok (Some frequency)
      ∧ Manual.clean_number (Str (get_text cell1)) = Ok (Some target)
      ∧ Manual.clean_number (Str (get_text cell3)) = Ok (Some measured).
Proof.
  unfold Spec.emitted_row. split.
  - destruct (find_all "td" tr) as [|c0 [|c1 [|c2 [|c3 rest]]]]; try done.
    intros H. exists c0, c1, c2, c3, rest. rewrite !manual_clean_number_str.
    unfold Spec.parsed in H.
    destruct (float_of_string (re_sub_non_numeric (get_text c0)));
      destruct (float_of_string (re_sub_non_numeric (get_text c1)));
      destruct (float_of_string (re_sub_non_numeric (get_text c3)));
      try done.
    by injection H as -> -> ->.
  - intros (c0 & c1 & c2 & c3 & rest & -> & H0 & H1 & H3).
    rewrite manual_clean_number_str in H0, H1, H3. unfold Spec.parsed.
    destruct (float_of_string (re_sub_non_numeric (get_text c0)));
      destruct (float_of_string (re_sub_non_numeric (get_text c1)));
      destruct (float_of_string (re_sub_non_numeric (get_text c3)));
      try done.
    by injection H0 as ->; injection H1 as ->; injection H3 as ->.
Qed.

(** C5. A table row gives a RawRow exactly when it has at least four
    cells and its cells 0, 1 and 3 all parse (cell 2 plays no part); the
    loop appends that row, and appends nothing for any other row, so that
    the extracted rows are the rows given by the [tr] elements, in order. *)
Theorem extract_rows_emits :
  (∀ (rows : list raw_row) (tr : node),
     Manual.row_step rows tr =
     Ok match Spec.emitted_row tr with
        | Some row => rows ++ [row]
        | None => rows
        end)
  ∧ (∀ table : node,
       Manual.extract_rows table
       = Ok (omap Spec.emitted_row (find_all "tr" table)))
  ∧ (∀ (tr : node) (frequency target measured : float64),
       Spec.emitted_row tr = Some (frequency, target, measured)
       ↔ ∃ cell0 cell1 cell2 cell3 others,
           find_all "td" tr = cell0 :: cell1 :: cell2 :: cell3 :: others
           ∧ Manual.clean_number (Str (get_text cell0)) = Ok (Some frequency)
           ∧ Manual.clean_number (Str (get_text cell1)) = Ok (Some target)
           ∧ Manual.clean_number (Str (get_text cell3)) = Ok (Some measured)).
Proof.
  split; [apply manual_row_step_spec|].
  split; [apply manual_extract_rows_spec|apply emitted_row_iff].
Qed.

Lemma extract_rows_numeric (table : node) (rows : list raw_row) :
  Manual.extract_rows table = Ok rows → Forall Spec.numeric_row rows.
Proof.
  rewrite manual_extract_rows_spec. intros [= <-].
  induction (find_all "tr" table) as [|tr trs IH]; simpl; [constructor|].
  destruct (Spec.emitted_row tr) as [r|] eqn:Hr; simpl; [|done].
  constructor; [|done]. by apply emitted_row_numeric in Hr.
Qed.

(** ** Sorting *)

Lemma insort_permutation {A : Type} (key : A → float64) (x : A) (l : list A) :
  Permutation (x :: l) (insort key x l).
Proof.
  induction l as [|y l IH]; simpl; [done|].
  destruct (py_lt _ _); [|done].
  rewrite <- IH. apply perm_swap.
Qed.

Lemma list_sort_permutation {A : Type} (key : A → float64) (l : list A) :
  Permutation l (list_sort key l).
Proof.
  induction l as [|x l IH]; simpl; [done|].
  rewrite <- insort_permutation. by constructor.
Qed.

Lemma float_value_not_nan (x : float64) :
  x ≠ S754_nan → num_value (PyFloat x) ≠ XNaN.
Proof. by destruct x. Qed.

Section Sorted.
Context {A : Type} (key : A → float64).

#[local] Abbreviation le := (Spec.key_le key).
#[local] Abbreviation number := (Spec.key_number key).

Lemma insort_hd (x y : A) (l : list A) :
  le y x → HdRel le y l → HdRel le y (insort key x l).
Proof.
  intros Hyx Hl. destruct l as [|z l]; simpl; [by constructor|].
  destruct (py_lt _ _); constructor; [|done]. by inversion Hl.
Qed.

Lemma insort_sorted (x : A) (l : list A) :
  number x → Forall number l → Sorted le l → Sorted le (insort key x l).
Proof.
  intros Hx Hl Hs. induction l as [|y l IH]; simpl.
  - by repeat constructor.
  - inversion Hl; subst. inversion Hs; subst.
    destruct (py_lt (PyFloat (key y)) (PyFloat (key x))) eqn:Hlt.
    + constructor; [by apply IH|].
      apply insort_hd; [by apply py_lt_le|done].
    + constructor; [done|]. constructor.
      apply py_lt_false_le; [by apply float_value_not_nan..|done].
Qed.

Lemma list_sort_sorted (l : list A) :
  Forall number l → Sorted le (list_sort key l).
Proof.
  induction 1 as [|x l Hx Hl IH]; simpl; [constructor|].
  apply insort_sorted; [done| |done].
  by rewrite <- (list_sort_permutation key l).
Qed.
End Sorted.

(** The sort is stable: the elements of any one key keep their order. *)
Lemma py_lt_not_eq (a b c : num) :
  py_lt a b = true → py_eq b c = true → py_eq a c = false.
Proof.
  unfold py_lt, py_eq, py_compare.
  destruct (num_value a) as [|[]|p], (num_value b) as [|[]|q],
    (num_value c) as [|[]|r]; simpl; try done.
  destruct (p ?= q)%Q eqn:Hpq; try done.
  destruct (q ?= r)%Q eqn:Hqr; try done. intros _ _.
  apply Qlt_alt in Hpq. apply Qeq_alt in Hqr.
  assert (p < r)%Q as Hpr by by rewrite <- Hqr.
  destruct (p ?= r)%Q eqn:Heq; try done.
  apply Qeq_alt in Heq. rewrite Heq in Hpr. by apply Qlt_irrefl in Hpr.
Qed.

Lemma insort_stable {A : Type} (key : A → float64) (k : num) (x : A)
    (l : list A) :
  List.filter (λ y, py_eq (PyFloat (key y)) k) (insort key x l)
  = List.filter (λ y, py_eq (PyFloat (key y)) k) (x :: l).
Proof.
  induction l as [|y l IH]; [done|]. cbn [insort].
  destruct (py_lt (PyFloat (key y)) (PyFloat (key x))) eqn:Hlt; [|done].
  cbn [List.filter] in *. rewrite IH.
  destruct (py_eq (PyFloat (key x)) k) eqn:Hx; [|done].
  by rewrite (py_lt_not_eq _ _ _ Hlt Hx).
Qed.

Lemma list_sort_stable {A : Type} (key : A → float64) (k : num) (l : list A) :
  List.filter (λ y, py_eq (PyFloat (key y)) k) (list_sort key l)
  = List.filter (λ y, py_eq (PyFloat (key y)) k) l.
Proof.
  induction l as [|x l IH]; [done|].
  cbn [list_sort foldr]. rewrite insort_stable.
  cbn [List.filter]. fold (list_sort key l). by rewrite IH.
Qed.

Lemma sorted_points (correct : raw_row → num) (rows : list raw_row) :
  Sorted Spec.row_le rows →
  Sorted Spec.point_le (map (λ row, (row.1.1, correct row)) rows).
Proof.
  induction 1 as [|r rows Hs IH Hhd]; simpl; constructor; [done|].
  destruct Hhd; simpl; by constructor.
Qed.

Lemma manual_sort_rows_sorted (rows : list raw_row) :
  Forall Spec.numeric_row rows → Sorted Spec.row_le (Manual.sort_rows rows).
Proof.
  intros H. apply (list_sort_sorted (λ x : raw_row, x.1.1)).
  eapply Forall_impl; [exact H|]. by intros r (? & _).
Qed.

(** A run that gets past the extraction is the run of the steps on the
    corrected, sorted rows. *)
Lemma manual_run_steps (BeautifulSoup : string → node)
    (html_file output_file text : string) (w : world) (table : node)
    (rows : list raw_row) :
  files w !! html_file = Some text →
  find "table" (BeautifulSoup text) = Some table →
  Manual.extract_rows table = Ok rows →
  rows ≠ [] →
  Manual.extract_and_clean_rtings_data BeautifulSoup html_file output_file w
  = Steps.manual_steps table rows
      (Manual.apply_eq_correction (Manual.sort_rows rows)) output_file w.
Proof.
  intros Hfile Hfind Hrows Hne.
  unfold Manual.extract_and_clean_rtings_data, mbind, script_bind, read_file.
  rewrite Hfile, Hfind. unfold lift. rewrite Hrows.
  by destruct rows.
Qed.

Lemma auto_run_steps (BeautifulSoup : string → node)
    (str_of_float : float64 → string)
    (html_file output_file text : string) (w : world) (table : node)
    (rows : list raw_row) :
  files w !! html_file = Some text →
  find "table" (BeautifulSoup text) = Some table →
  AutoExtractor.extract_rows table = Ok rows →
  rows ≠ [] →
  AutoExtractor.extract_and_clean_rtings_data BeautifulSoup str_of_float
    html_file output_file w
  = Steps.auto_steps str_of_float table rows
      (AutoExtractor.apply_eq_correction (AutoExtractor.sort_rows rows))
      output_file w.
Proof.
  intros Hfile Hfind Hrows Hne.
  unfold AutoExtractor.extract_and_clean_rtings_data, mbind, script_bind,
    exists_file, read_file.
  rewrite Hfile. rewrite bool_decide_eq_true_2 by by eexists.
  cbn [negb]. rewrite Hfile, Hfind. unfold lift. rewrite Hrows.
  by destruct rows.
Qed.

(** C6. On every document whose first table yields rows, what a script
    hands to its Corrector is sorted ascending by frequency: its run is
    the run of its messages and of its writing of the corrected [handed]
    rows, where [handed] is sorted, each frequency at most the next, and
    is a rearrangement of the extracted rows, so that rows of equal
    frequency are all kept; hence the points it writes are sorted too.
    Both scripts do so, and hand over the same rows. *)
Theorem rows_sorted_by_frequency (BeautifulSoup : string → node)
    (str_of_float : float64 → string)
    (html_file output_file text : string) (w : world) (table : node)
    (rows : list raw_row) :
  files w !! html_file = Some text →
  find "table" (BeautifulSoup text) = Some table →
  Manual.extract_rows table = Ok rows →
  rows ≠ [] →
  ∃ handed : list raw_row,
    Sorted Spec.row_le handed
    ∧ Permutation rows handed
    ∧ Sorted Spec.point_le (Manual.apply_eq_correction handed)
    ∧ Manual.extract_and_clean_rtings_data BeautifulSoup html_file
        output_file w
      = Steps.manual_steps table rows (Manual.apply_eq_correction handed)
          output_file w
    ∧ AutoExtractor.extract_and_clean_rtings_data BeautifulSoup str_of_float
        html_file output_file w
      = Steps.auto_steps str_of_float table rows
          (AutoExtractor.apply_eq_correction handed) output_file w.
Proof.
  intros Hfile Hfind Hrows Hne.
  pose proof (extract_rows_numeric _ _ Hrows) as Hnum.
  pose proof (manual_sort_rows_sorted rows Hnum) as Hsorted.
  exists (Manual.sort_rows rows).
  split; [done|]. split; [apply list_sort_permutation|].
  split; [rewrite manual_apply_eq_correction_map; by apply sorted_points|].
  split; [by apply (manual_run_steps _ _ _ text)|].
  by apply (auto_run_steps _ _ _ _ text).
Qed.

Lemma rows_sorted_by_frequency_witness :
  files (Sample.world_with "page.html" "<html>") !! "page.html" = Some "<html>"
  ∧ find "table" (Sample.page Sample.measured_table)
    = Some Sample.measured_table
  ∧ Manual.extract_rows Sample.measured_table = Ok Sample.measured_rows
  ∧ Sample.measured_rows ≠ []
  ∧ ∃ handed : list raw_row,
      Sorted Spec.row_le handed
      ∧ Permutation Sample.measured_rows handed
      ∧ Sorted Spec.point_le (Manual.apply_eq_correction handed)
      ∧ Manual.extract_and_clean_rtings_data
          (λ _, Sample.page Sample.measured_table) "page.html" "eq.txt"
          (Sample.world_with "page.html" "<html>")
        = Steps.manual_steps Sample.measured_table Sample.measured_rows
            (Manual.apply_eq_correction handed) "eq.txt"
            (Sample.world_with "page.html" "<html>")
      ∧ AutoExtractor.extract_and_clean_rtings_data
          (λ _, Sample.page Sample.measured_table) (λ _, "f")
          "page.html" "eq.txt" (Sample.world_with "page.html" "<html>")
        = Steps.auto_steps (λ _, "f") Sample.measured_table
            Sample.measured_rows (AutoExtractor.apply_eq_correction handed)
            "eq.txt" (Sample.world_with "page.html" "<html>").
Proof.
  assert (H : Manual.extract_rows Sample.measured_table
              = Ok Sample.measured_rows) by by vm_compute.
  assert (Hne : Sample.measured_rows ≠ []) by done.
  split; [reflexivity|]. split; [reflexivity|]. split; [exact H|].
  split; [exact Hne|].
  exact (rows_sorted_by_frequency (λ _, Sample.page Sample.measured_table)
           (λ _, "f") "page.html" "eq.txt" "<html>"
           (Sample.world_with "page.html" "<html>")
           Sample.measured_table Sample.measured_rows
           eq_refl eq_refl H Hne).
Defined.

(** C8 as stated fails: a row whose first cell reads ["-5"] is emitted
    with the frequency -5. *)
Lemma frequency_not_always_positive :
  ¬ (∀ (table : node) (rows : list raw_row),
       Manual.extract_rows table = Ok rows →
       Forall Spec.positive_frequency rows).
Proof.
  intros H.
  assert (Hrows : Manual.extract_rows Sample.negative_table
                  = Ok Sample.negative_rows) by by vm_compute.
  apply H in Hrows. inversion Hrows as [|r rows Hpos _]; subst.
  by vm_compute in Hpos.
Qed.

(** C8, amended. Every extracted row is the row of a [tr] element of the
    table whose cells 0, 1 and 3 parsed, and its three fields are numbers,
    never NaN. *)
Theorem extracted_rows_are_numbers (table : node) (rows : list raw_row) :
  Manual.extract_rows table = Ok rows →
  Forall
    (λ row, Spec.numeric_row row
            ∧ ∃ tr, tr ∈ find_all "tr" table ∧ Spec.emitted_row tr = Some row)
    rows.
Proof.
  intros Hrows. pose proof (extract_rows_numeric _ _ Hrows) as Hnum.
  rewrite manual_extract_rows_spec in Hrows. injection Hrows as <-.
  apply Forall_forall. intros row Hin. split.
  - by apply (proj1 (Forall_forall _ _) Hnum).
  - by apply list_elem_of_omap.
Qed.

Lemma extracted_rows_are_numbers_witness :
  Manual.extract_rows Sample.negative_table = Ok Sample.negative_rows
  ∧ Forall
      (λ row, Spec.numeric_row row
              ∧ ∃ tr, tr ∈ find_all "tr" Sample.negative_table
                      ∧ Spec.emitted_row tr = Some row)
      Sample.negative_rows.
Proof.
  assert (H : Manual.extract_rows Sample.negative_table
              = Ok Sample.negative_rows) by by vm_compute.
  split; [exact H|]. exact (extracted_rows_are_numbers _ _ H).
Defined.

(** ** Running the scripts *)

Lemma string_app_cons (c : ascii) (s t : string) :
  String c s +:+ t = String c (s +:+ t).
Proof. reflexivity. Qed.

Lemma string_app_nil_l (s : string) : EmptyString +:+ s = s.
Proof. reflexivity. Qed.

Lemma string_app_nil_r (s : string) : s +:+ EmptyString = s.
Proof.
  induction s as [|c s IH]; [done|]. by rewrite string_app_cons, IH.
Qed.

Lemma string_app_assoc (s t u : string) : (s +:+ t) +:+ u = s +:+ t +:+ u.
Proof.
  induction s as [|c s IH]; [done|]. by rewrite !string_app_cons, IH.
Qed.

Lemma concat_empty_cons (line : string) (lines : list string) :
  String.concat EmptyString (line :: lines)
  = line +:+ String.concat EmptyString lines.
Proof.
  destruct lines as [|line' lines]; simpl; [|done].
  by rewrite string_app_nil_r.
Qed.

Lemma write_opened (path text written : string) (w : world) :
  files w !! path = Some written →
  write path text w
  = (Ok (), World (console w) (<[path := written +:+ text]> (files w))).
Proof. intros H. unfold write. by rewrite H. Qed.

Lemma writelines_opened (path written : string) (lines : list string)
    (w : world) :
  files w !! path = Some written →
  writelines path lines w
  = (Ok (),
     World (console w)
       (<[path := written +:+ String.concat EmptyString lines]> (files w))).
Proof.
  revert written w. induction lines as [|line lines IH]; intros written w H.
  - simpl. unfold mret, script_ret. rewrite string_app_nil_r.
    rewrite insert_id by done. by destruct w.
  - cbn [writelines]. unfold mbind, script_bind.
    rewrite (write_opened _ _ _ _ H).
    rewrite (IH (written +:+ line)) by (simpl; apply lookup_insert_eq).
    cbn [console files]. rewrite insert_insert_eq.
    by rewrite string_app_assoc, concat_empty_cons.
Qed.

(** The effect of [save_graphic_eq_format]: the whole line, or an emptied
    file when building the line raises. *)
Lemma save_graphic_eq_format_run (eq_data : list (float64 * num))
    (output_file : string) (w : world) :
  Manual.save_graphic_eq_format eq_data output_file w =
  match mapM Manual.format_point eq_data with
  | Ok points =>
      (Ok (),
       World (console w)
         (<[output_file :=
              ("GraphicEQ: " +:+ String.concat "; " points) +:+ newline]>
            (files w)))
  | Raise e =>
      (Raise e, World (console w) (<[output_file := EmptyString]> (files w)))
  end.
Proof.
  unfold Manual.save_graphic_eq_format, mbind, script_bind, open_w, lift.
  destruct (mapM Manual.format_point eq_data) as [points|e]; [|done].
  rewrite (write_opened _ _ EmptyString) by (simpl; apply lookup_insert_eq).
  simpl console. simpl files.
  rewrite (write_opened _ _ ("GraphicEQ: " +:+ String.concat "; " points))
    by (simpl; apply lookup_insert_eq).
  simpl. by rewrite !insert_insert_eq.
Qed.

(** What the first script does on a document, in full. *)
Lemma manual_run (BeautifulSoup : string → node)
    (html_file output_file text : string) (w : world) :
  files w !! html_file = Some text →
  Manual.extract_and_clean_rtings_data BeautifulSoup html_file output_file w =
  match find "table" (BeautifulSoup text) with
  | None =>
      (Ok (),
       World (console w ++ [Line "No table found in the HTML file."]) (files w))
  | Some table =>
      let headers :=
        HeadersLine "Table headers: "
          (map get_text_strip (find_all "th" table)) in
      match omap Spec.emitted_row (find_all "tr" table) with
      | [] =>
          (Ok (),
           World (console w
                  ++ [headers; Line "No valid data found in the table."])
             (files w))
      | row :: others =>
          let rows := row :: others in
          let log :=
            console w
            ++ [headers;
                Line ("Extracted " +:+ str_of_int (Z.of_nat (length rows))
                      +:+ " rows of data:");
                RowsLine rows] in
          match mapM Manual.format_point
                  (Manual.apply_eq_correction (Manual.sort_rows rows)) with
          | Ok points =>
              (Ok (),
               World
                 (log ++ [Line ("Cleaned and corrected data saved to "
                                +:+ output_file)])
                 (<[output_file :=
                      ("GraphicEQ: " +:+ String.concat "; " points)
                      +:+ newline]> (files w)))
          | Raise e =>
              (Raise e,
               World log (<[output_file := EmptyString]> (files w)))
          end
      end
  end.
Proof.
  intros Hfile.
  unfold Manual.extract_and_clean_rtings_data, mbind, script_bind, read_file.
  rewrite Hfile. destruct (find "table" (BeautifulSoup text)) as [table|];
    [|done].
  unfold print at 1, lift. rewrite manual_extract_rows_spec.
  destruct (omap Spec.emitted_row (find_all "tr" table)) as [|row others].
  - unfold print. cbn [console files]. rewrite <- app_assoc. reflexivity.
  - unfold print. cbn [console files].
    rewrite save_graphic_eq_format_run. cbn [console files].
    destruct (mapM _ _); cbn [console files]; rewrite <- !app_assoc;
      reflexivity.
Qed.

(** What the second script does on a document, in full. *)
Lemma auto_run (BeautifulSoup : string → node)
    (str_of_float : float64 → string)
    (html_file output_file text : string) (w : world) :
  files w !! html_file = Some text →
  AutoExtractor.extract_and_clean_rtings_data BeautifulSoup str_of_float
    html_file output_file w =
  match find "table" (BeautifulSoup text) with
  | None =>
      (Ok (),
       World (console w ++ [Line "No table found in the HTML file."]) (files w))
  | Some table =>
      let headers :=
        HeadersLine "Table Headers Found: "
          (map get_text_strip (find_all "th" table)) in
      match omap Spec.emitted_row (find_all "tr" table) with
      | [] =>
          (Ok (),
           World
             (console w
              ++ [headers;
                  Line "Error: No valid frequency response data extracted."])
             (files w))
      | row :: others =>
          let rows := row :: others in
          (Ok (),
           World
             (console w
              ++ [headers;
                  Line ("Extracted " +:+ str_of_int (Z.of_nat (length rows))
                        +:+ " data points.");
                  Line ("Processed data successfully saved to: "
                        +:+ output_file)])
             (<[output_file :=
                  String.concat EmptyString
                    (map (AutoExtractor.format_line str_of_float)
                       (AutoExtractor.apply_eq_correction
                          (AutoExtractor.sort_rows rows)))]> (files w)))
      end
  end.
Proof.
  intros Hfile.
  unfold AutoExtractor.extract_and_clean_rtings_data, mbind, script_bind,
    exists_file, read_file.
  rewrite Hfile. rewrite bool_decide_eq_true_2 by by eexists.
  cbn [negb]. rewrite Hfile. destruct (find "table" (BeautifulSoup text)) as [table|];
    [|done].
  unfold print at 1, lift.
  rewrite auto_extract_rows_eq, manual_extract_rows_spec.
  destruct (omap Spec.emitted_row (find_all "tr" table)) as [|row others].
  - unfold print. cbn [console files]. rewrite <- app_assoc. reflexivity.
  - unfold print, open_w. cbn [console files].
    rewrite (writelines_opened _ EmptyString)
      by (cbn [files]; apply lookup_insert_eq).
    cbn [console files]. rewrite insert_insert_eq, string_app_nil_l.
    rewrite <- !app_assoc. reflexivity.
Qed.

Lemma short_row_not_emitted (tr : node) :
  length (find_all "td" tr) < 4 → Spec.emitted_row tr = None.
Proof.
  unfold Spec.emitted_row.
  destruct (find_all "td" tr) as [|c0 [|c1 [|c2 [|c3 rest]]]]; simpl; try done.
  lia.
Qed.

Lemma short_rows_extract_nothing (table : node) :
  Forall (λ tr, length (find_all "td" tr) < 4) (find_all "tr" table) →
  Manual.extract_rows table = Ok [].
Proof.
  rewrite manual_extract_rows_spec. intros H. f_equal.
  induction H as [|tr trs Htr _ IH]; simpl; [done|].
  by rewrite (short_row_not_emitted tr Htr).
Qed.

(** C3. When the document has no table the run ends after printing that no
    table was found; when the first table yields no valid row (as does a
    table whose rows all have fewer than four cells) it ends after printing
    that no valid data was found, a different message. Either way the
    script returns before the serializer is reached and the files are what
    they were: the output file is neither created nor modified. *)
Theorem abort_leaves_no_output (BeautifulSoup : string → node)
    (html_file output_file text : string) (w : world) :
  files w !! html_file = Some text →
  (find "table" (BeautifulSoup text) = None →
   Manual.extract_and_clean_rtings_data BeautifulSoup html_file output_file w
   = (Ok (),
      World (console w ++ [Line "No table found in the HTML file."])
        (files w)))
  ∧ (∀ table : node,
       find "table" (BeautifulSoup text) = Some table →
       Manual.extract_rows table = Ok [] →
       Manual.extract_and_clean_rtings_data BeautifulSoup html_file
         output_file w
       = (Ok (),
          World
            (console w
             ++ [HeadersLine "Table headers: "
                   (map get_text_strip (find_all "th" table));
                 Line "No valid data found in the table."])
            (files w)))
  ∧ (∀ table : node,
       Forall (λ tr, length (find_all "td" tr) < 4) (find_all "tr" table) →
       Manual.extract_rows table = Ok []).
Proof.
  intros Hfile. rewrite (manual_run _ _ _ _ _ Hfile).
  split; [by intros ->|]. split; [|apply short_rows_extract_nothing].
  intros table -> Hrows. rewrite manual_extract_rows_spec in Hrows.
  by injection Hrows as ->.
Qed.

Lemma abort_leaves_no_output_witness :
  Manual.extract_and_clean_rtings_data (λ _, Sample.no_table_page)
    "page.html" "eq.txt" (Sample.world_with "page.html" "<html>")
  = (Ok (),
     World [Line "No table found in the HTML file."]
       {["page.html" := "<html>"]})
  ∧ Manual.extract_and_clean_rtings_data
      (λ _, Sample.page Sample.header_only_table)
      "page.html" "eq.txt" (Sample.world_with "page.html" "<html>")
    = (Ok (),
       World
         [HeadersLine "Table headers: "
            ["Frequency"; "Target"; "Left"; "Average"];
          Line "No valid data found in the table."]
         {["page.html" := "<html>"]}).
Proof.
  split.
  - apply (proj1 (abort_leaves_no_output (λ _, Sample.no_table_page)
                    "page.html" "eq.txt" "<html>"
                    (Sample.world_with "page.html" "<html>") eq_refl)).
    reflexivity.
  - apply (proj1 (proj2 (abort_leaves_no_output
                           (λ _, Sample.page Sample.header_only_table)
                           "page.html" "eq.txt" "<html>"
                           (Sample.world_with "page.html" "<html>") eq_refl))
             Sample.header_only_table); reflexivity.
Defined.

(** C9. On every document the two scripts compute the same sequence of
    (frequency, gain) pairs: extraction, cleaning, filtering, sorting and
    correction agree. What each leaves in the output file is a rendering of
    that one sequence: the GraphicEQ line for the first script (an emptied
    file if the line cannot be built), one line per pair for the second;
    and both leave the files alone when there are no pairs. *)
Theorem scripts_share_pipeline (BeautifulSoup : string → node)
    (str_of_float : float64 → string)
    (html_file output_file text : string) (w : world) :
  files w !! html_file = Some text →
  let manual_points :=
    Spec.pipeline Manual.extract_rows Manual.sort_rows
      Manual.apply_eq_correction in
  let auto_points :=
    Spec.pipeline AutoExtractor.extract_rows AutoExtractor.sort_rows
      AutoExtractor.apply_eq_correction in
  (∀ soup : node, auto_points soup = manual_points soup)
  ∧ files (Manual.extract_and_clean_rtings_data BeautifulSoup html_file
             output_file w).2
    = match manual_points (BeautifulSoup text) with
      | None => files w
      | Some eq_data =>
          <[output_file :=
              match mapM Manual.format_point eq_data with
              | Ok points =>
                  ("GraphicEQ: " +:+ String.concat "; " points) +:+ newline
              | Raise _ => EmptyString
              end]> (files w)
      end
  ∧ files (AutoExtractor.extract_and_clean_rtings_data BeautifulSoup
             str_of_float html_file output_file w).2
    = match auto_points (BeautifulSoup text) with
      | None => files w
      | Some eq_data =>
          <[output_file :=
              String.concat EmptyString
                (map (AutoExtractor.format_line str_of_float) eq_data)]>
            (files w)
      end.
Proof.
  intros Hfile manual_points auto_points. split; [|split].
  - intros soup. subst manual_points auto_points. unfold Spec.pipeline.
    destruct (find "table" soup) as [table|]; [|done].
    rewrite auto_extract_rows_eq.
    by destruct (Manual.extract_rows table) as [[|row rows]|].
  - rewrite (manual_run _ _ _ _ _ Hfile).
    subst manual_points. unfold Spec.pipeline.
    destruct (find "table" (BeautifulSoup text)) as [table|]; [|done].
    rewrite manual_extract_rows_spec.
    destruct (omap Spec.emitted_row (find_all "tr" table)); [done|].
    cbn zeta. by destruct (mapM _ _).
  - rewrite (auto_run _ _ _ _ _ _ Hfile).
    subst auto_points. unfold Spec.pipeline.
    destruct (find "table" (BeautifulSoup text)) as [table|]; [|done].
    rewrite auto_extract_rows_eq, manual_extract_rows_spec.
    by destruct (omap Spec.emitted_row (find_all "tr" table)).
Qed.

Lemma scripts_share_pipeline_witness :
  files (Sample.world_with "page.html" "<html>") !! "page.html" = Some "<html>"
  ∧ (∀ soup : node,
       Spec.pipeline AutoExtractor.extract_rows AutoExtractor.sort_rows
         AutoExtractor.apply_eq_correction soup
       = Spec.pipeline Manual.extract_rows Manual.sort_rows
           Manual.apply_eq_correction soup)
  ∧ files (Manual.extract_and_clean_rtings_data
             (λ _, Sample.page Sample.measured_table)
             "page.html" "eq.txt" (Sample.world_with "page.html" "<html>")).2
    = <["eq.txt" := "GraphicEQ: 20 32.00; 20 5.50; 54 -3.20" +:+ newline]>
        {["page.html" := "<html>"]}
  ∧ files (AutoExtractor.extract_and_clean_rtings_data
             (λ _, Sample.page Sample.measured_table) (λ _, "f")
             "page.html" "eq.txt" (Sample.world_with "page.html" "<html>")).2
    = <["eq.txt" := "f 32" +:+ newline +:+ "f f" +:+ newline
                    +:+ "f f" +:+ newline]>
        {["page.html" := "<html>"]}.
Proof.
  split; [reflexivity|].
  exact (scripts_share_pipeline (λ _, Sample.page Sample.measured_table)
           (λ _, "f") "page.html" "eq.txt" "<html>"
           (Sample.world_with "page.html" "<html>") eq_refl).
Defined.

(** ** The Serializer *)

Lemma int_of_float_truncates (x : float64) :
  Spec.finite x = true →
  ∃ q : Q, float_value x = XFin q ∧ int_of_float x = Ok (Spec.truncate q).
Proof.
  destruct x as [s|s| |s m e]; try done; intros _.
  - by exists 0%Q.
  - exists (float_Q s m e). split; [done|]. simpl. f_equal.
    unfold Spec.truncate, float_Q.
    destruct e as [|e|e]; cbn [Qnum Qden inject_Z].
    + rewrite Z.quot_1_r, Z.shiftl_0_r. destruct s; simpl; lia.
    + rewrite Z.quot_1_r, Z.shiftl_mul_pow2 by lia. destruct s; simpl; lia.
    + change (Z.shiftl (Z.pos m) (Z.neg e)) with (Z.shiftr (Z.pos m) (Z.pos e)).
      rewrite Z.shiftr_div_pow2 by lia. rewrite Pos2Z.inj_pow.
      destruct s; simpl cond_Zopp.
      * change (Z.neg m) with (- Z.pos m)%Z. rewrite Z.quot_opp_l by lia.
        f_equal. symmetry. apply Z.quot_div_nonneg; lia.
      * symmetry. apply Z.quot_div_nonneg; lia.
Qed.

Lemma py_le_int (a b : Z) : py_le (PyInt a) (PyInt b) = true ↔ (a ≤ b)%Z.
Proof.
  unfold py_le, py_compare, xcompare, num_value, Qcompare, inject_Z.
  cbn [Qnum Qden]. rewrite !Z.mul_1_r.
  destruct (Z.compare_spec a b); split; intros; try done; lia.
Qed.

Lemma uint_all_digits (d : Decimal.uint) :
  all_digits (NilEmpty.string_of_uint d) = true.
Proof. induction d; simpl; done. Qed.

Lemma str_of_int_nonneg (n : Z) :
  (0 ≤ n)%Z →
  is_empty (str_of_int n) = false ∧ all_digits (str_of_int n) = true.
Proof.
  intros Hn. unfold str_of_int.
  destruct n as [|p|p]; [done| |lia].
  simpl. pose proof (uint_all_digits (Pos.to_uint p)) as Hd.
  destruct (Pos.to_uint p); done.
Qed.

Lemma digit_char_is_digit (d : Z) :
  (0 ≤ d < 10)%Z → is_digit (digit_char d) = true.
Proof.
  intros Hd. assert (d ∈ seqZ 0 10) as Hin by by apply elem_of_seqZ.
  revert Hin. generalize d. apply Forall_forall. vm_compute. repeat constructor.
Qed.

Lemma fixed2_two_decimals (neg : bool) (h : Z) :
  (0 ≤ h)%Z → Spec.two_decimals (fixed2 neg h).
Proof.
  intros Hh. unfold fixed2.
  destruct (str_of_int_nonneg (h / 100)) as [Hne Hdigits];
    [by apply Z.div_pos|].
  exists (if neg then "-" else EmptyString), (str_of_int (h / 100)),
    (digit_char (h / 10 mod 10)), (digit_char (h mod 10)).
  repeat split; try done.
  - destruct neg; [by right | by left].
  - apply digit_char_is_digit, Z.mod_pos_bound. lia.
  - apply digit_char_is_digit, Z.mod_pos_bound. lia.
Qed.

Lemma round_half_even_nonneg (n d : Z) :
  (0 ≤ n)%Z → (0 < d)%Z → (0 ≤ round_half_even n d)%Z.
Proof.
  intros Hn Hd. unfold round_half_even.
  assert (0 ≤ n / d)%Z by by apply Z.div_pos.
  destruct (_ ?= _)%Z; [destruct (Z.even _)|..]; lia.
Qed.

Lemma hundredths_nonneg (m : positive) (e : Z) : (0 ≤ hundredths m e)%Z.
Proof.
  unfold hundredths. destruct e as [|e|e]; try lia.
  apply round_half_even_nonneg; lia.
Qed.

Lemma format_2f_float_two_decimals (x : float64) :
  Spec.finite x = true → Spec.two_decimals (format_2f_float x).
Proof.
  destruct x as [s|s| |s m e]; try done; intros _; simpl.
  - by apply fixed2_two_decimals.
  - apply fixed2_two_decimals, hundredths_nonneg.
Qed.

Lemma in_range_float_finite (x : float64) :
  Spec.in_range (PyFloat x) → Spec.finite x = true.
Proof.
  unfold Spec.in_range, py_le, py_compare.
  destruct x as [s|[]| |s m e]; simpl; by intros [? ?].
Qed.

Lemma in_range_int_float (n : Z) :
  Spec.in_range (PyInt n) →
  ∃ x : float64, float_of_int n = Ok x ∧ Spec.finite x = true.
Proof.
  unfold Spec.in_range. rewrite !py_le_int. intros Hn.
  assert (n ∈ seqZ (-32) 65) as Hin by (apply elem_of_seqZ; lia).
  assert (match float_of_int n with
          | Ok x => Spec.finite x
          | Raise _ => false
          end = true) as Hcheck.
  { apply list_elem_of_In in Hin. clear Hn. revert n Hin.
    apply forallb_forall. by vm_compute. }
  destruct (float_of_int n) as [x|]; [|done]. by exists x.
Qed.

Lemma format_2f_in_range (g : num) :
  Spec.in_range g →
  ∃ text : string, format_2f g = Ok text ∧ Spec.two_decimals text.
Proof.
  destruct g as [n|x]; intros Hg; simpl.
  - destruct (in_range_int_float n Hg) as (x & -> & Hx). simpl.
    eexists. split; [done|]. by apply format_2f_float_two_decimals.
  - eexists. split; [done|].
    by apply format_2f_float_two_decimals, in_range_float_finite.
Qed.

Lemma format_point_rendered (point : float64 * num) :
  Spec.correction_point point →
  ∃ text : string,
    Manual.format_point point = Ok text ∧ Spec.rendered point text.
Proof.
  destruct point as [f g]. intros [Hf Hg]. simpl in Hf, Hg.
  destruct (int_of_float_truncates f Hf) as (q & Hq & Hint).
  destruct (format_2f_in_range g Hg) as (gain_text & Hfmt & Htwo).
  unfold Manual.format_point. rewrite Hint, Hfmt. simpl.
  eexists. split; [done|]. by exists q, gain_text.
Qed.

Lemma mapM_format_point (eq_data : list (float64 * num)) :
  Forall Spec.correction_point eq_data →
  ∃ points : list string,
    mapM Manual.format_point eq_data = Ok points
    ∧ Forall2 Spec.rendered eq_data points.
Proof.
  induction 1 as [|point eq_data Hpoint _ (points & IH & Hall)].
  - by exists [].
  - destruct (format_point_rendered point Hpoint) as (text & Htext & Hr).
    exists (text :: points). split; [|by constructor].
    cbn [mapM]. rewrite Htext. simpl. by rewrite IH.
Qed.

(** *** One line *)

Lemma no_newline_app (s t : string) :
  Spec.no_newline (s +:+ t) = Spec.no_newline s && Spec.no_newline t.
Proof.
  induction s as [|c s IH]; [done|].
  rewrite string_app_cons. simpl. rewrite IH. by rewrite andb_assoc.
Qed.

Lemma digit_not_newline (c : ascii) :
  is_digit c = true → Ascii.eqb c "010"%char = false.
Proof. destruct c as [[] [] [] [] [] [] [] []]; by vm_compute. Qed.

Lemma all_digits_no_newline (s : string) :
  all_digits s = true → Spec.no_newline s = true.
Proof.
  induction s as [|c s IH]; simpl; [done|].
  intros [Hc Hs]%andb_true_iff. by rewrite (digit_not_newline c Hc), IH.
Qed.

Lemma str_of_int_no_newline (n : Z) : Spec.no_newline (str_of_int n) = true.
Proof.
  destruct n as [|p|p]; [done|..].
  - apply all_digits_no_newline. by apply (str_of_int_nonneg (Z.pos p)).
  - unfold str_of_int. simpl.
    apply all_digits_no_newline.
    pose proof (uint_all_digits (Pos.to_uint p)) as Hd.
    by destruct (Pos.to_uint p).
Qed.

Lemma two_decimals_no_newline (text : string) :
  Spec.two_decimals text → Spec.no_newline text = true.
Proof.
  intros (sign & digits & d1 & d2 & -> & Hsign & _ & Hdigits & H1 & H2).
  rewrite !no_newline_app. simpl.
  rewrite (all_digits_no_newline _ Hdigits).
  rewrite (digit_not_newline _ H1), (digit_not_newline _ H2).
  by destruct Hsign as [-> | ->].
Qed.

Lemma rendered_no_newline (point : float64 * num) (text : string) :
  Spec.rendered point text → Spec.no_newline text = true.
Proof.
  intros (q & gain_text & _ & _ & Htwo & ->).
  rewrite !no_newline_app, str_of_int_no_newline. simpl.
  by apply two_decimals_no_newline.
Qed.

Lemma concat_no_newline (sep : string) (texts : list string) :
  Spec.no_newline sep = true →
  Forall (λ text, Spec.no_newline text = true) texts →
  Spec.no_newline (String.concat sep texts) = true.
Proof.
  intros Hsep. induction 1 as [|text texts Htext Hall IH]; [done|].
  destruct texts as [|text' texts]; [done|].
  change (String.concat sep (text :: text' :: texts))
    with (text +:+ sep +:+ String.concat sep (text' :: texts)).
  by rewrite !no_newline_app, Htext, Hsep, IH.
Qed.

Lemma rendered_all_no_newline (eq_data : list (float64 * num))
    (points : list string) :
  Forall2 Spec.rendered eq_data points →
  Forall (λ text, Spec.no_newline text = true) points.
Proof.
  induction 1 as [|point text ? ? Hr _ IH]; constructor; [|done].
  by apply rendered_no_newline in Hr.
Qed.

(** C2. For every sequence of CorrectionPoints the Serializer writes
    exactly one line to the output file, replacing what was there: the
    prefix ["GraphicEQ: "], then the points joined by ["; "], each rendered
    as its frequency truncated toward zero, a space and its gain with
    exactly two decimal digits, then a line break, the only one. The points
    [(20, 5.5), (54, -3.2)] give ["GraphicEQ: 20 5.50; 54 -3.20"] and a line
    break; a frequency of 54.99 is written [54], not [55]. *)
Theorem save_graphic_eq_format_line (eq_data : list (float64 * num))
    (output_file : string) (w : world) :
  Forall Spec.correction_point eq_data →
  (∃ points : list string,
     Forall2 Spec.rendered eq_data points
     ∧ Manual.save_graphic_eq_format eq_data output_file w
       = (Ok (),
          World (console w)
            (<[output_file :=
                 ("GraphicEQ: " +:+ String.concat "; " points) +:+ newline]>
               (files w)))
     ∧ Spec.no_newline ("GraphicEQ: " +:+ String.concat "; " points) = true)
  ∧ Manual.save_graphic_eq_format Sample.two_points output_file w
    = (Ok (),
       World (console w)
         (<[output_file := "GraphicEQ: 20 5.50; 54 -3.20" +:+ newline]>
            (files w)))
  ∧ Manual.format_point (Spec.lit "54.99", PyFloat (Spec.lit "1"))
    = Ok "54 1.00"%string.
Proof.
  intros Hpoints. split; [|split; [|by vm_compute]].
  - destruct (mapM_format_point eq_data Hpoints) as (points & Hmap & Hall).
    exists points. split; [done|]. split.
    + by rewrite save_graphic_eq_format_run, Hmap.
    + rewrite no_newline_app. apply andb_true_iff. split; [done|].
      apply concat_no_newline; [done|].
      by apply (rendered_all_no_newline eq_data).
  - rewrite save_graphic_eq_format_run.
    by assert (mapM Manual.format_point Sample.two_points
               = Ok ["20 5.50"; "54 -3.20"]%string) as -> by by vm_compute.
Qed.

Lemma save_graphic_eq_format_line_witness :
  Forall Spec.correction_point Sample.two_points
  ∧ ∃ points : list string,
      Forall2 Spec.rendered Sample.two_points points
      ∧ Manual.save_graphic_eq_format Sample.two_points "eq.txt" (World [] ∅)
        = (Ok (),
           World []
             (<["eq.txt" :=
                  ("GraphicEQ: " +:+ String.concat "; " points) +:+ newline]>
                ∅))
      ∧ Spec.no_newline ("GraphicEQ: " +:+ String.concat "; " points) = true.
Proof.
  assert (H : Forall Spec.correction_point Sample.two_points).
  { repeat constructor; by vm_compute. }
  split; [exact H|].
  exact (proj1 (save_graphic_eq_format_line Sample.two_points "eq.txt"
                  (World [] ∅) H)).
Defined.

(** ** Further facts about the model *)

(** [round_half_even n d] is an integer nearest to [n / d]: the number
    written with two decimals is within half a hundredth of the gain. *)
Lemma round_half_even_nearest (n d : Z) :
  (0 ≤ n)%Z → (0 < d)%Z →
  (Z.abs (2 * n - 2 * d * round_half_even n d) ≤ d)%Z.
Proof.
  intros Hn Hd. unfold round_half_even.
  pose proof (Z.div_mod n d ltac:(lia)) as Hdiv.
  pose proof (Z.mod_pos_bound n d Hd) as Hmod.
  destruct (Z.compare_spec (2 * (n mod d)) d);
    [destruct (Z.even (n / d))|..]; nia.
Qed.

(** X11. The second script aborts in the same two cases, with its own
    messages, and leaves the files alone as well. *)
Lemma auto_abort_leaves_no_output (BeautifulSoup : string → node)
    (str_of_float : float64 → string)
    (html_file output_file text : string) (w : world) :
  files w !! html_file = Some text →
  (find "table" (BeautifulSoup text) = None →
   AutoExtractor.extract_and_clean_rtings_data BeautifulSoup str_of_float
     html_file output_file w
   = (Ok (),
      World (console w ++ [Line "No table found in the HTML file."])
        (files w)))
  ∧ (∀ table : node,
       find "table" (BeautifulSoup text) = Some table →
       AutoExtractor.extract_rows table = Ok [] →
       AutoExtractor.extract_and_clean_rtings_data BeautifulSoup str_of_float
         html_file output_file w
       = (Ok (),
          World
            (console w
             ++ [HeadersLine "Table Headers Found: "
                   (map get_text_strip (find_all "th" table));
                 Line "Error: No valid frequency response data extracted."])
            (files w))).
Proof.
  intros Hfile. rewrite (auto_run _ _ _ _ _ _ Hfile).
  split; [by intros ->|].
  intros table ->. rewrite auto_extract_rows_eq, manual_extract_rows_spec.
  by intros [= ->].
Qed.

(** X10. Without its input file the first script raises
    [FileNotFoundError] and changes nothing; the second reports the missing
    file on the console and returns, the files unchanged. *)
Lemma missing_input (BeautifulSoup : string → node)
    (str_of_float : float64 → string) (html_file output_file : string)
    (w : world) :
  files w !! html_file = None →
  Manual.extract_and_clean_rtings_data BeautifulSoup html_file output_file w
  = (Raise FileNotFoundError, w)
  ∧ AutoExtractor.extract_and_clean_rtings_data BeautifulSoup str_of_float
      html_file output_file w
    = (Ok (),
       World
         (console w
          ++ [Line ("Error: File '" +:+ html_file +:+ "' not found.")])
         (files w)).
Proof.
  intros Hfile. split.
  - unfold Manual.extract_and_clean_rtings_data, mbind, script_bind, read_file.
    by rewrite Hfile.
  - unfold AutoExtractor.extract_and_clean_rtings_data, mbind, script_bind,
      exists_file.
    rewrite Hfile. rewrite bool_decide_eq_false_2 by by intros [? ?].
    reflexivity.
Qed.

(** An infinite frequency, as a cell of four hundred digits gives, stops
    the Serializer of the first script after the output file was emptied. *)
Lemma save_graphic_eq_format_infinite (gain : num) (output_file : string)
    (w : world) :
  Manual.save_graphic_eq_format [(S754_infinity false, gain)] output_file w
  = (Raise OverflowError,
     World (console w) (<[output_file := EmptyString]> (files w))).
Proof. by rewrite save_graphic_eq_format_run. Qed.

(** * Further properties *)

(** ** Sorting *)

Lemma py_le_not_lt (a b : num) : py_le a b = true → py_lt b a = false.
Proof.
  unfold py_le, py_lt, py_compare.
  rewrite (xcompare_antisym (num_value a) (num_value b)).
  by destruct (xcompare _ _) as [[]|].
Qed.

Lemma list_sort_sorted_id {A : Type} (key : A → float64) (l : list A) :
  Sorted (Spec.key_le key) l → list_sort key l = l.
Proof.
  induction 1 as [|x l Hs IH Hhd]; [done|].
  cbn [list_sort foldr]. fold (list_sort key l). rewrite IH.
  destruct Hhd as [|y l Hxy]; [done|]. cbn [insort].
  by rewrite (py_le_not_lt _ _ Hxy).
Qed.

Lemma insort_map {A B : Type} (key : A → float64) (key' : B → float64)
    (g : A → B) (x : A) (l : list A) :
  (∀ a, key' (g a) = key a) →
  map g (insort key x l) = insort key' (g x) (map g l).
Proof.
  intros Hkey. induction l as [|y l IH]; [done|].
  cbn [insort map]. rewrite !Hkey. destruct (py_lt _ _); [|done].
  cbn [map]. by rewrite IH.
Qed.

Lemma list_sort_map {A B : Type} (key : A → float64) (key' : B → float64)
    (g : A → B) (l : list A) :
  (∀ a, key' (g a) = key a) →
  map g (list_sort key l) = list_sort key' (map g l).
Proof.
  intros Hkey. induction l as [|x l IH]; [done|].
  cbn [list_sort foldr map]. fold (list_sort key l).
  fold (list_sort key' (map g l)). by rewrite (insort_map key key'), IH.
Qed.

(** X1. The sort is stable: in both scripts the rows of any one frequency
    come out of [rows.sort] in the order they went in, so that rows of
    equal frequency keep their document order. *)
Theorem sort_rows_stable (k : num) (rows : list raw_row) :
  List.filter (λ row : raw_row, py_eq (PyFloat row.1.1) k)
    (Manual.sort_rows rows)
  = List.filter (λ row : raw_row, py_eq (PyFloat row.1.1) k) rows
  ∧ List.filter (λ row : raw_row, py_eq (PyFloat row.1.1) k)
      (AutoExtractor.sort_rows rows)
    = List.filter (λ row : raw_row, py_eq (PyFloat row.1.1) k) rows.
Proof.
  split; apply (list_sort_stable (λ x : raw_row, x.1.1)).
Qed.

(** X2. Rows that are already in ascending order of frequency, as a
    published series is, are left exactly as they are by the sort. *)
Theorem sort_rows_sorted_unchanged (rows : list raw_row) :
  Sorted Spec.row_le rows →
  Manual.sort_rows rows = rows ∧ AutoExtractor.sort_rows rows = rows.
Proof.
  intros H. split; by apply (list_sort_sorted_id (λ x : raw_row, x.1.1)).
Qed.

Lemma sort_rows_sorted_unchanged_witness :
  Sorted Spec.row_le (Manual.sort_rows Sample.measured_rows)
  ∧ Manual.sort_rows (Manual.sort_rows Sample.measured_rows)
    = Manual.sort_rows Sample.measured_rows.
Proof.
  assert (H : Sorted Spec.row_le (Manual.sort_rows Sample.measured_rows)).
  { repeat constructor; by vm_compute. }
  split; [exact H|]. exact (proj1 (sort_rows_sorted_unchanged _ H)).
Defined.

(** X3. Correcting and sorting commute: correcting the sorted rows gives
    the points that sorting the corrected rows by frequency would give. *)
Theorem apply_eq_correction_sort_commute (rows : list raw_row) :
  Manual.apply_eq_correction (Manual.sort_rows rows)
  = list_sort fst (Manual.apply_eq_correction rows)
  ∧ AutoExtractor.apply_eq_correction (AutoExtractor.sort_rows rows)
    = list_sort fst (AutoExtractor.apply_eq_correction rows).
Proof.
  split.
  - rewrite !manual_apply_eq_correction_map. by apply list_sort_map.
  - rewrite !auto_apply_eq_correction_map. by apply list_sort_map.
Qed.

(** ** Clamping *)

Lemma scale_gain_value_num (gain : num) :
  num_value (Manual.scale_gain gain) = Spec.clamp (num_value gain).
Proof.
  unfold Manual.scale_gain, py_max, py_min.
  rewrite !py_gt_lt. unfold py_lt, py_compare. cbn [num_value].
  destruct (num_value gain) as [|[]|q] eqn:Hx; simpl; rewrite ?Hx; try done.
  unfold Qmin, Qmax, GenericMinMax.gmin, GenericMinMax.gmax, inject_Z.
  rewrite <- (Qcompare_antisym q 32).
  destruct (q ?= 32)%Q eqn:Hhi; simpl; rewrite ?Hx; simpl; try done.
  by destruct (-32 ?= q)%Q; simpl; rewrite ?Hx.
Qed.

(** X4. Clamping is idempotent: a clamped gain is left as it is by a
    second clamping. *)
Theorem scale_gain_idempotent (gain : num) :
  Manual.scale_gain (Manual.scale_gain gain) = Manual.scale_gain gain
  ∧ AutoExtractor.scale_gain (AutoExtractor.scale_gain gain)
    = AutoExtractor.scale_gain gain.
Proof.
  assert (Manual.scale_gain (Manual.scale_gain gain)
          = Manual.scale_gain gain) as H; [|by split].
  unfold Manual.scale_gain at 2 3. unfold py_max, py_min.
  rewrite !py_gt_lt.
  destruct (py_lt gain (PyInt 32)) eqn:Hhi.
  - destruct (py_lt (PyInt (-32)) gain) eqn:Hlo; [|done].
    unfold Manual.scale_gain, py_max, py_min.
    by rewrite !py_gt_lt, Hhi, Hlo.
  - done.
Qed.

Lemma qcompare_le (p q : Q) :
  match (p ?= q)%Q with Lt | Eq => true | Gt => false end = true ↔ (p <= q)%Q.
Proof.
  rewrite Qle_alt. destruct (p ?= q)%Q; split; intros; done.
Qed.

Lemma py_le_lt_32 (gain : num) :
  py_le gain (PyInt (-32)) = true → py_lt gain (PyInt 32) = true.
Proof.
  unfold py_le, py_lt, py_compare. cbn [num_value].
  destruct (num_value gain) as [|[]|q]; cbn [xcompare]; try done.
  intros H%qcompare_le.
  assert (q < inject_Z 32)%Q as Hlt by (eapply Qle_lt_trans; [exact H|done]).
  unfold Qcompare. unfold Qlt, Z.lt in Hlt. by rewrite Hlt.
Qed.

(** X5. A gain strictly between -32 and 32 passes through the clamp
    unchanged; a gain of 32 or more becomes the integer 32 and a gain of
    -32 or less the integer -32. *)
Theorem scale_gain_cases (gain : num) :
  (py_lt (PyInt (-32)) gain = true → py_lt gain (PyInt 32) = true →
   Manual.scale_gain gain = gain)
  ∧ (py_le (PyInt 32) gain = true → Manual.scale_gain gain = PyInt 32)
  ∧ (py_le gain (PyInt (-32)) = true → Manual.scale_gain gain = PyInt (-32)).
Proof.
  unfold Manual.scale_gain, py_max, py_min. rewrite !py_gt_lt.
  split; [|split].
  - intros Hlo Hhi. by rewrite Hhi, Hlo.
  - intros H. by rewrite (py_le_not_lt _ _ H).
  - intros H. by rewrite (py_le_lt_32 _ H), (py_le_not_lt _ _ H).
Qed.

Lemma scale_gain_cases_witness :
  Manual.scale_gain (PyFloat (Spec.lit "5.5")) = PyFloat (Spec.lit "5.5")
  ∧ Manual.scale_gain (PyFloat (Spec.lit "50")) = PyInt 32
  ∧ Manual.scale_gain (PyFloat (Spec.lit "-32")) = PyInt (-32).
Proof.
  split; [|split].
  - apply (proj1 (scale_gain_cases (PyFloat (Spec.lit "5.5"))));
      by vm_compute.
  - apply (proj1 (proj2 (scale_gain_cases (PyFloat (Spec.lit "50")))));
      by vm_compute.
  - apply (proj2 (proj2 (scale_gain_cases (PyFloat (Spec.lit "-32")))));
      by vm_compute.
Defined.

(** X6. Clamping keeps the order of gains: if one gain is at most another
    before clamping, it is at most the other after. *)
Theorem scale_gain_monotone (gain gain' : num) :
  py_le gain gain' = true →
  py_le (Manual.scale_gain gain) (Manual.scale_gain gain') = true.
Proof.
  unfold py_le, py_compare. rewrite !scale_gain_value_num.
  destruct (num_value gain) as [|[]|q], (num_value gain') as [|[]|q'];
    cbn [xcompare Spec.clamp]; try done; rewrite ?qcompare_le; intros H.
  - apply Q.le_max_l.
  - apply Q.max_lub; [done|]. apply Q.le_min_l.
  - by apply Q.max_le_compat_l, Q.min_le_compat_l.
Qed.

Lemma scale_gain_monotone_witness :
  py_le (PyFloat (Spec.lit "5.5")) (PyFloat (Spec.lit "50")) = true
  ∧ py_le (Manual.scale_gain (PyFloat (Spec.lit "5.5")))
      (Manual.scale_gain (PyFloat (Spec.lit "50"))) = true.
Proof.
  split; [by vm_compute|]. apply scale_gain_monotone. by vm_compute.
Defined.

(** ** More on number cleaning *)

Import Notions.

(** X7. [clean_number] sees only the digits, points and minus signs of a
    text: two texts that keep the same characters are cleaned to the same
    result, whatever units, blanks or letters surround or separate them. *)
Theorem clean_number_numeric_chars (s t : string) :
  re_sub_non_numeric s = re_sub_non_numeric t →
  Manual.clean_number (Str s) = Manual.clean_number (Str t)
  ∧ AutoExtractor.clean_number (Str s) = AutoExtractor.clean_number (Str t).
Proof.
  intros H.
  assert (Manual.clean_number (Str s) = Manual.clean_number (Str t)) as Hm
    by by rewrite !manual_clean_number_str, H.
  split; exact Hm.
Qed.

Lemma clean_number_numeric_chars_witness :
  re_sub_non_numeric "26.81 dB" = re_sub_non_numeric "~26.81 dB(A)"
  ∧ Manual.clean_number (Str "26.81 dB")
    = Manual.clean_number (Str "~26.81 dB(A)").
Proof.
  assert (H : re_sub_non_numeric "26.81 dB"
              = re_sub_non_numeric "~26.81 dB(A)") by by vm_compute.
  split; [exact H|]. exact (proj1 (clean_number_numeric_chars _ _ H)).
Defined.

Lemma sign_split (s : string) :
  match s with
  | String "-"%char rest => (true, rest)
  | _ => (false, s)
  end
  = (leading_minus s, if leading_minus s then tail s else s).
Proof.
  destruct s as [|c s]; [done|].
  destruct c as [[] [] [] [] [] [] [] []]; done.
Qed.

Lemma binary_round_aux_sign (s : bool) (m e : Z) (l : location) :
  (0 ≤ m)%Z → negative (binary_round_aux prec emax s m e l) = s.
Proof.
  intros Hm. unfold binary_round_aux.
  pose proof (shr_fexp_nonneg m e l Hm) as H1.
  destruct (shr_fexp prec emax m e l) as [mrs' e']. simpl in H1.
  pose proof (shr_fexp_nonneg _ e' loc_Exact
                (round_nearest_even_nonneg _ (loc_of_shr_record mrs') H1)) as H2.
  destruct (shr_fexp prec emax _ e' loc_Exact) as [mrs'' e'']. simpl in H2.
  destruct (shr_m mrs''); [done| |lia]. by destruct (_ <=? _)%Z.
Qed.

Lemma decimal_to_float_sign (neg : bool) (int_part frac_part : string) :
  negative (decimal_to_float neg int_part frac_part) = neg.
Proof.
  unfold decimal_to_float. destruct (digits_to_Z 0 _) as [|n|n]; try done.
  unfold SFdiv, SFdiv_core_binary.
  set (d := Z.to_pos _). set (e' := Z.min _ _).
  set (m' := match _ with Z0 => _ | _ => _ end).
  assert (0 ≤ m')%Z as Hm'.
  { subst m'. destruct (0 - 0 - e')%Z; try lia. apply Z.shiftl_nonneg. lia. }
  destruct (Z.div_eucl m' (Z.pos d)) as [q r] eqn:Hqr.
  rewrite binary_round_aux_sign; [by destruct neg|].
  assert (q = (m' / Z.pos d)%Z) as -> by (unfold Z.div; by rewrite Hqr).
  apply Z.div_pos; lia.
Qed.

Lemma float_of_string_sign (s : string) (x : float64) :
  float_of_string s = Ok x → negative x = leading_minus s.
Proof.
  unfold float_of_string. rewrite sign_split.
  destruct (span_digits _) as [int_part rest].
  destruct rest as [|c rest].
  - destruct (is_empty int_part); [done|].
    intros [= <-]. apply decimal_to_float_sign.
  - destruct (Ascii.eqb c "."%char) eqn:Hc.
    + apply Ascii.eqb_eq in Hc as ->.
      destruct (_ && _); [|done]. intros [= <-]. apply decimal_to_float_sign.
    + destruct c as [[] [] [] [] [] [] [] []]; try done.
Qed.

(** X8. The number [clean_number] returns for a text is negative (or a
    negative zero) exactly when the cleaned text starts with a minus sign:
    a minus sign anywhere else never flips the sign. *)
Theorem clean_number_sign (s : string) (x : float64) :
  Manual.clean_number (Str s) = Ok (Some x) →
  negative x = leading_minus (re_sub_non_numeric s).
Proof.
  rewrite manual_clean_number_str.
  destruct (float_of_string _) as [y|] eqn:H; [|done].
  intros [= <-]. by apply float_of_string_sign.
Qed.

Lemma clean_number_sign_witness :
  Manual.clean_number (Str "gain: -3.2 dB") = Ok (Some (Spec.lit "-3.2"))
  ∧ negative (Spec.lit "-3.2")
    = leading_minus (re_sub_non_numeric "gain: -3.2 dB").
Proof.
  assert (H : Manual.clean_number (Str "gain: -3.2 dB")
              = Ok (Some (Spec.lit "-3.2"))) by by vm_compute.
  split; [exact H|]. exact (clean_number_sign _ _ H).
Defined.

Lemma count_char_app (c : ascii) (s t : string) :
  count_char c (s +:+ t) = count_char c s + count_char c t.
Proof.
  induction s as [|c' s IH]; [done|].
  rewrite string_app_cons. simpl. rewrite IH. lia.
Qed.

Lemma count_char_digits (c : ascii) (s : string) :
  is_digit c = false → all_digits s = true → count_char c s = 0.
Proof.
  intros Hc. induction s as [|c' s IH]; simpl; [done|].
  intros [Hc' Hs]%andb_true_iff. rewrite IH by done.
  destruct (Ascii.eqb c' c) eqn:Heq; [|done].
  apply Ascii.eqb_eq in Heq as ->. congruence.
Qed.

Lemma span_digits_spec (s int_part rest : string) :
  span_digits s = (int_part, rest) →
  s = int_part +:+ rest ∧ all_digits int_part = true.
Proof.
  revert int_part rest. induction s as [|c s IH]; intros int_part rest; simpl.
  - by intros [= <- <-].
  - destruct (is_digit c) eqn:Hc.
    + destruct (span_digits s) as [ds r]. intros [= <- <-].
      destruct (IH ds r eq_refl) as [-> Hds]. simpl. by rewrite Hc.
    + by intros [= <- <-].
Qed.

Lemma count_char_tail (c : ascii) (s : string) :
  count_char c (tail s) ≤ count_char c s.
Proof. destruct s as [|c' s]; simpl; lia. Qed.

(** A text the parser accepts has no minus sign after its first character
    and at most one point. *)
Lemma float_of_string_well_formed (s : string) (x : float64) :
  float_of_string s = Ok x →
  count_char "-" (tail s) = 0 ∧ count_char "." s ≤ 1.
Proof.
  unfold float_of_string. rewrite sign_split.
  set (body := if leading_minus s then tail s else s).
  assert (count_char "-" (tail s) ≤ count_char "-" body
          ∧ count_char "." s = count_char "." body
            + (if leading_minus s then count_char "." "-" else 0)) as [Hm Hp].
  { subst body. destruct s as [|c s]; [done|].
    destruct c as [[] [] [] [] [] [] [] []]; simpl; lia. }
  simpl in Hp.
  destruct (span_digits body) as [int_part rest] eqn:Hspan.
  apply span_digits_spec in Hspan as [Hbody Hint].
  rewrite Hbody, !count_char_app in *.
  rewrite (count_char_digits "-" int_part) in Hm by done.
  rewrite (count_char_digits "." int_part) in Hp by done.
  destruct rest as [|c rest].
  - destruct (is_empty int_part); [done|]. intros _. simpl in *.
    destruct (leading_minus s); lia.
  - destruct (Ascii.eqb c "."%char) eqn:Hc.
    + apply Ascii.eqb_eq in Hc as ->.
      destruct (all_digits rest) eqn:Hrest; [|done]. intros _.
      cbn [count_char] in *.
      rewrite (count_char_digits "-" rest) in Hm by done.
      rewrite (count_char_digits "." rest) in Hp by done.
      simpl in *. destruct (leading_minus s); lia.
    + destruct c as [[] [] [] [] [] [] [] []]; try done.
Qed.

(** X9. A cleaned text with a minus sign after its first character, or
    with more than one point, is never read as a number: [clean_number]
    returns [None] (and the row is dropped), as for a range such as
    ["20-20000"] or a date. *)
Theorem clean_number_malformed (s : string) :
  malformed (re_sub_non_numeric s) →
  Manual.clean_number (Str s) = Ok None.
Proof.
  intros Hbad. rewrite manual_clean_number_str.
  destruct (float_of_string _) as [x|] eqn:H; [|done].
  apply float_of_string_well_formed in H as [Hm Hp].
  destruct Hbad; lia.
Qed.

Lemma clean_number_malformed_witness :
  malformed (re_sub_non_numeric "20-20000 Hz")
  ∧ Manual.clean_number (Str "20-20000 Hz") = Ok None.
Proof.
  assert (H : malformed (re_sub_non_numeric "20-20000 Hz")).
  { left. vm_compute. lia. }
  split; [exact H|]. exact (clean_number_malformed _ H).
Defined.

(** ** More on running the scripts *)

Lemma manual_run_missing (BeautifulSoup : string → node)
    (html_file output_file : string) (w : world) :
  files w !! html_file = None →
  Manual.extract_and_clean_rtings_data BeautifulSoup html_file output_file w
  = (Raise FileNotFoundError, w).
Proof.
  intros Hfile.
  unfold Manual.extract_and_clean_rtings_data, mbind, script_bind, read_file.
  by rewrite Hfile.
Qed.

Lemma auto_run_missing (BeautifulSoup : string → node)
    (str_of_float : float64 → string) (html_file output_file : string)
    (w : world) :
  files w !! html_file = None →
  AutoExtractor.extract_and_clean_rtings_data BeautifulSoup str_of_float
    html_file output_file w
  = (Ok (),
     World
       (console w ++ [Line ("Error: File '" +:+ html_file +:+ "' not found.")])
       (files w)).
Proof.
  intros Hfile.
  unfold AutoExtractor.extract_and_clean_rtings_data, mbind, script_bind,
    exists_file.
  rewrite Hfile. rewrite bool_decide_eq_false_2 by by intros [? ?].
  reflexivity.
Qed.

(** X14. Neither script creates, changes or removes any file other than
    the output file; in particular the input file is kept unless it is the
    output file itself. *)
Theorem other_files_untouched (BeautifulSoup : string → node)
    (str_of_float : float64 → string) (html_file output_file path : string)
    (w : world) :
  path ≠ output_file →
  files (Manual.extract_and_clean_rtings_data BeautifulSoup html_file
           output_file w).2 !! path = files w !! path
  ∧ files (AutoExtractor.extract_and_clean_rtings_data BeautifulSoup
             str_of_float html_file output_file w).2 !! path
    = files w !! path.
Proof.
  intros Hpath. destruct (files w !! html_file) as [text|] eqn:Hfile.
  - rewrite (manual_run _ _ _ _ _ Hfile), (auto_run _ _ _ _ _ _ Hfile).
    destruct (find "table" (BeautifulSoup text)) as [table|]; [|done].
    destruct (omap Spec.emitted_row (find_all "tr" table)); [done|].
    cbn zeta. split.
    + destruct (mapM _ _); cbn [snd files]; by rewrite lookup_insert_ne.
    + cbn [snd files]. by rewrite lookup_insert_ne.
  - by rewrite manual_run_missing, auto_run_missing.
Qed.

Lemma other_files_untouched_witness :
  "page.html" ≠ "eq.txt"
  ∧ files (Manual.extract_and_clean_rtings_data
             (λ _, Sample.page Sample.measured_table)
             "page.html" "eq.txt" (Sample.world_with "page.html" "<html>")).2
    !! "page.html"
    = files (Sample.world_with "page.html" "<html>") !! "page.html".
Proof.
  assert (H : "page.html" ≠ "eq.txt") by done.
  split; [exact H|].
  exact (proj1 (other_files_untouched
                  (λ _, Sample.page Sample.measured_table) (λ _, "f")
                  "page.html" "eq.txt" "page.html"
                  (Sample.world_with "page.html" "<html>") H)).
Defined.

(** ** What the first script raises *)

Lemma format_point_overflow (f : float64) (g : num) :
  f ≠ S754_nan → Spec.finite f = false →
  Manual.format_point (f, g) = Raise OverflowError.
Proof. by destruct f. Qed.

Lemma mapM_format_point_overflow (eq_data : list (float64 * num)) :
  Forall (λ p, p.1 ≠ S754_nan ∧ Spec.in_range p.2) eq_data →
  Exists (λ p, Spec.finite p.1 = false) eq_data →
  mapM Manual.format_point eq_data = Raise OverflowError.
Proof.
  induction 1 as [|[f g] eq_data [Hf Hg] Hall IH]; intros Hex.
  - inversion Hex.
  - cbn [mapM]. simpl in Hf, Hg.
    destruct (Spec.finite f) eqn:Hfin.
    + destruct (format_point_rendered (f, g)) as (text & -> & _); [done|].
      inversion Hex as [? ? Hbad|? ? Hrest]; subst; simpl in *; [congruence|].
      cbn [mbind result_bind]. by rewrite IH.
    + by rewrite format_point_overflow.
Qed.

Lemma corrected_points_sound (rows : list raw_row) :
  Forall Spec.numeric_row rows →
  Forall (λ p, p.1 ≠ S754_nan ∧ Spec.in_range p.2)
    (Manual.apply_eq_correction rows).
Proof.
  rewrite manual_apply_eq_correction_map.
  induction 1 as [|row rows (Hf & _) _ IH]; constructor; [|done].
  split; [done|]. apply scale_gain_in_range.
Qed.

Lemma corrected_points_exists (P : float64 → Prop) (rows : list raw_row) :
  Exists (λ p : float64 * num, P p.1) (Manual.apply_eq_correction rows)
  ↔ Exists (λ row : raw_row, P row.1.1) rows.
Proof.
  rewrite manual_apply_eq_correction_map.
  induction rows as [|row rows IH]; simpl.
  - split; inversion 1.
  - rewrite !Exists_cons. by rewrite IH.
Qed.

Lemma corrected_points_forall (P : float64 → Prop) (rows : list raw_row) :
  Forall (λ p : float64 * num, P p.1) (Manual.apply_eq_correction rows)
  ↔ Forall (λ row : raw_row, P row.1.1) rows.
Proof.
  rewrite manual_apply_eq_correction_map.
  induction rows as [|row rows IH]; simpl.
  - split; constructor.
  - rewrite !Forall_cons. by rewrite IH.
Qed.

(** The line is built exactly when every frequency is finite; otherwise
    building it raises [OverflowError]. *)
Lemma manual_points_outcome (rows : list raw_row) :
  Forall Spec.numeric_row rows →
  (Forall (λ row : raw_row, Spec.finite row.1.1 = true) rows
   ∧ ∃ points : list string,
       mapM Manual.format_point
         (Manual.apply_eq_correction (Manual.sort_rows rows)) = Ok points
       ∧ Forall2 Spec.rendered
           (Manual.apply_eq_correction (Manual.sort_rows rows)) points)
  ∨ (Exists (λ row : raw_row, Spec.finite row.1.1 = false) rows
     ∧ mapM Manual.format_point
         (Manual.apply_eq_correction (Manual.sort_rows rows))
       = Raise OverflowError).
Proof.
  intros Hnum.
  assert (Hperm : Permutation rows (Manual.sort_rows rows))
    by apply list_sort_permutation.
  assert (Hnum' : Forall Spec.numeric_row (Manual.sort_rows rows))
    by by rewrite <- Hperm.
  pose proof (corrected_points_sound _ Hnum') as Hsound.
  destruct (decide (Exists (λ row : raw_row, Spec.finite row.1.1 = false) rows))
    as [Hex|Hall].
  - right. split; [done|]. apply mapM_format_point_overflow; [done|].
    apply (corrected_points_exists (λ f, Spec.finite f = false)).
    by rewrite <- Hperm.
  - left. apply not_Exists_Forall in Hall; [|intros ?; apply _].
    assert (Hfin : Forall (λ row : raw_row, Spec.finite row.1.1 = true) rows).
    { eapply Forall_impl; [exact Hall|]. intros row. simpl.
      by destruct (Spec.finite row.1.1). }
    split; [done|]. apply mapM_format_point.
    assert (Hfin' : Forall (λ p : float64 * num, Spec.finite p.1 = true)
                      (Manual.apply_eq_correction (Manual.sort_rows rows))).
    { apply (corrected_points_forall (λ f, Spec.finite f = true)).
      by rewrite <- Hperm. }
    apply Forall_forall. intros p Hp. split.
    + by apply (proj1 (Forall_forall _ _) Hfin').
    + by apply (proj1 (Forall_forall _ _) Hsound).
Qed.

(** X13. A row whose frequency is infinite (a cell of hundreds of digits)
    makes the first script fail: with its input present, the run does not
    return normally. And an [OverflowError] has no other cause: a run that
    raises it had such a row. *)
Theorem infinite_frequency_fails (BeautifulSoup : string → node)
    (html_file output_file text : string) (w : world) (table : node)
    (rows : list raw_row) :
  files w !! html_file = Some text →
  find "table" (BeautifulSoup text) = Some table →
  Manual.extract_rows table = Ok rows →
  let run :=
    Manual.extract_and_clean_rtings_data BeautifulSoup html_file
      output_file w in
  (Exists (λ row : raw_row, Spec.finite row.1.1 = false) rows →
   run.1 ≠ Ok ())
  ∧ (run.1 = Raise OverflowError →
     Exists (λ row : raw_row, Spec.finite row.1.1 = false) rows).
Proof.
  intros Hfile Hfind Hrows run. subst run.
  pose proof (extract_rows_numeric _ _ Hrows) as Hnum.
  rewrite (manual_run _ _ _ _ _ Hfile), Hfind.
  rewrite manual_extract_rows_spec in Hrows. injection Hrows as ->.
  destruct rows as [|row others]; [split; [inversion 1|done]|].
  cbn zeta.
  destruct (manual_points_outcome _ Hnum)
    as [[Hfin (points & -> & _)]|[Hbad ->]];
    cbn [fst]; (split; [|done]); [|done].
  intros Hbad. apply Exists_exists in Hbad as (r & Hin & Hr).
  apply (proj1 (Forall_forall _ _) Hfin) in Hin. congruence.
Qed.

Lemma infinite_frequency_fails_witness :
  files (Sample.world_with "page.html" "<html>") !! "page.html" = Some "<html>"
  ∧ find "table" (Sample.page overflow_table) = Some overflow_table
  ∧ Manual.extract_rows overflow_table = Ok overflow_rows
  ∧ Exists (λ row : raw_row, Spec.finite row.1.1 = false) overflow_rows
  ∧ (Manual.extract_and_clean_rtings_data (λ _, Sample.page overflow_table)
       "page.html" "eq.txt" (Sample.world_with "page.html" "<html>")).1
    ≠ Ok ().
Proof.
  assert (Hrows : Manual.extract_rows overflow_table = Ok overflow_rows)
    by by vm_compute.
  assert (Hbad : Exists (λ row : raw_row, Spec.finite row.1.1 = false)
                   overflow_rows)
    by (apply Exists_cons_tl, Exists_cons_hd; reflexivity).
  split; [reflexivity|]. split; [reflexivity|]. split; [exact Hrows|].
  split; [exact Hbad|].
  exact (proj1 (infinite_frequency_fails (λ _, Sample.page overflow_table)
                  "page.html" "eq.txt" "<html>"
                  (Sample.world_with "page.html" "<html>")
                  overflow_table overflow_rows eq_refl eq_refl Hrows) Hbad).
Defined.

(** ** What the scripts write *)

Lemma sort_rows_length (rows : list raw_row) :
  length (Manual.sort_rows rows) = length rows.
Proof. symmetry. apply Permutation_length, list_sort_permutation. Qed.

Lemma truncate_le (q q' : Q) :
  (q <= q')%Q → (Spec.truncate q ≤ Spec.truncate q')%Z.
Proof.
  unfold Qle, Spec.truncate. destruct q as [a d], q' as [a' d']. simpl.
  intros H.
  rewrite <- (Z.quot_mul_cancel_r a (Z.pos d) (Z.pos d')) by lia.
  rewrite <- (Z.quot_mul_cancel_r a' (Z.pos d') (Z.pos d)) by lia.
  rewrite (Z.mul_comm (Z.pos d') (Z.pos d)).
  apply Z.quot_le_mono; lia.
Qed.

Lemma int_of_float_mono (f f' : float64) :
  Spec.finite f = true → Spec.finite f' = true →
  py_le (PyFloat f) (PyFloat f') = true →
  ∃ i i' : Z, int_of_float f = Ok i ∧ int_of_float f' = Ok i' ∧ (i ≤ i')%Z.
Proof.
  intros Hf Hf' Hle.
  destruct (int_of_float_truncates f Hf) as (q & Hq & ->).
  destruct (int_of_float_truncates f' Hf') as (q' & Hq' & ->).
  exists (Spec.truncate q), (Spec.truncate q'). repeat split.
  apply truncate_le. unfold py_le, py_compare in Hle. cbn [num_value] in Hle.
  rewrite Hq, Hq' in Hle. cbn [xcompare] in Hle. by apply qcompare_le.
Qed.

Lemma rendered_ints (eq_data : list (float64 * num)) (points : list string) :
  Forall2 Spec.rendered eq_data points →
  Sorted Spec.point_le eq_data →
  ∃ ints : list Z,
    Forall2 starts_with_int ints points
    ∧ Forall2 (λ (p : float64 * num) (i : Z), int_of_float p.1 = Ok i)
        eq_data ints
    ∧ Sorted Z.le ints.
Proof.
  induction 1 as [|p text eq_data points Hr Hall IH]; intros Hsorted.
  - exists []. by repeat constructor.
  - apply Sorted_inv in Hsorted as [Hsorted Hhd].
    destruct (IH Hsorted) as (ints & Hstart & Hint & Hle).
    destruct Hr as (q & gain_text & Hq & _ & _ & ->).
    assert (Hfin : Spec.finite p.1 = true)
      by (by destruct p as [[] ?]).
    destruct (int_of_float_truncates _ Hfin) as (q' & Hq' & Hi).
    rewrite Hq in Hq'. injection Hq' as <-.
    exists (Spec.truncate q :: ints).
    split; [constructor; [by exists gain_text|done]|].
    split; [by constructor|].
    constructor; [done|].
    destruct Hint as [|p' i' eq_data ints Hi' _]; constructor.
    inversion Hhd as [|? ? Hpp']; subst.
    assert (Hfin' : Spec.finite p'.1 = true).
    { destruct p' as [f' ?]. simpl in *. by destruct f'. }
    destruct (int_of_float_mono _ _ Hfin Hfin' Hpp') as (j & j' & Hj & Hj' & ?).
    rewrite Hi in Hj. rewrite Hi' in Hj'. by simplify_eq.
Qed.

(** X16. When every extracted frequency is finite, the integer
    frequencies the first script writes are in ascending order, each at
    most the next (truncation may make neighbours equal): the run is the
    run of the script's messages and of [save_graphic_eq_format] on points
    whose texts, as the serializer builds them, start with integers in
    that order. *)
Theorem written_frequencies_ascending (BeautifulSoup : string → node)
    (html_file output_file text : string) (w : world) (table : node)
    (rows : list raw_row) :
  files w !! html_file = Some text →
  find "table" (BeautifulSoup text) = Some table →
  Manual.extract_rows table = Ok rows →
  rows ≠ [] →
  Forall (λ row : raw_row, Spec.finite row.1.1 = true) rows →
  ∃ (eq_data : list (float64 * num)) (points : list string) (ints : list Z),
    Manual.extract_and_clean_rtings_data BeautifulSoup html_file
      output_file w
    = Steps.manual_steps table rows eq_data output_file w
    ∧ mapM Manual.format_point eq_data = Ok points
    ∧ Forall2 starts_with_int ints points
    ∧ Sorted Z.le ints.
Proof.
  intros Hfile Hfind Hrows Hne Hfin.
  pose proof (extract_rows_numeric _ _ Hrows) as Hnum.
  pose proof (manual_sort_rows_sorted rows Hnum) as Hsorted.
  destruct (manual_points_outcome _ Hnum)
    as [[_ (points & Hmap & Hall)]|[Hbad _]].
  - destruct (rendered_ints _ _ Hall) as (ints & Hstart & _ & Hle).
    { rewrite manual_apply_eq_correction_map. by apply sorted_points. }
    exists (Manual.apply_eq_correction (Manual.sort_rows rows)), points, ints.
    split; [by apply (manual_run_steps _ _ _ text)|done].
  - apply Exists_exists in Hbad as (r & Hin & Hr).
    apply (proj1 (Forall_forall _ _) Hfin) in Hin. congruence.
Qed.

Lemma written_frequencies_ascending_witness :
  files (Sample.world_with "page.html" "<html>") !! "page.html" = Some "<html>"
  ∧ find "table" (Sample.page Sample.measured_table)
    = Some Sample.measured_table
  ∧ Manual.extract_rows Sample.measured_table = Ok Sample.measured_rows
  ∧ Sample.measured_rows ≠ []
  ∧ Forall (λ row : raw_row, Spec.finite row.1.1 = true) Sample.measured_rows
  ∧ ∃ (eq_data : list (float64 * num)) (points : list string)
      (ints : list Z),
      Manual.extract_and_clean_rtings_data
        (λ _, Sample.page Sample.measured_table) "page.html" "eq.txt"
        (Sample.world_with "page.html" "<html>")
      = Steps.manual_steps Sample.measured_table Sample.measured_rows eq_data
          "eq.txt" (Sample.world_with "page.html" "<html>")
      ∧ mapM Manual.format_point eq_data = Ok points
      ∧ Forall2 starts_with_int ints points
      ∧ Sorted Z.le ints.
Proof.
  assert (H : Manual.extract_rows Sample.measured_table
              = Ok Sample.measured_rows) by by vm_compute.
  assert (Hne : Sample.measured_rows ≠ []) by done.
  assert (Hfin : Forall (λ row : raw_row, Spec.finite row.1.1 = true)
                   Sample.measured_rows) by (repeat constructor).
  split; [reflexivity|]. split; [reflexivity|]. split; [exact H|].
  split; [exact Hne|]. split; [exact Hfin|].
  exact (written_frequencies_ascending
           (λ _, Sample.page Sample.measured_table)
           "page.html" "eq.txt" "<html>"
           (Sample.world_with "page.html" "<html>")
           Sample.measured_table Sample.measured_rows
           eq_refl eq_refl H Hne Hfin).
Defined.

(** X17. End to end, first script: when the first table yields at least
    one row and every frequency is finite, the run is the run of the
    script's messages and of [save_graphic_eq_format] on the corrected,
    sorted rows, and the serializer builds from them exactly as many
    points as there are valid rows, each the rendering of its corrected
    point. *)
Theorem manual_run_points (BeautifulSoup : string → node)
    (html_file output_file text : string) (w : world) (table : node)
    (rows : list raw_row) :
  files w !! html_file = Some text →
  find "table" (BeautifulSoup text) = Some table →
  Manual.extract_rows table = Ok rows →
  rows ≠ [] →
  Forall (λ row : raw_row, Spec.finite row.1.1 = true) rows →
  let eq_data := Manual.apply_eq_correction (Manual.sort_rows rows) in
  ∃ points : list string,
    Manual.extract_and_clean_rtings_data BeautifulSoup html_file
      output_file w
    = Steps.manual_steps table rows eq_data output_file w
    ∧ mapM Manual.format_point eq_data = Ok points
    ∧ length points = length rows
    ∧ Forall2 Spec.rendered eq_data points.
Proof.
  intros Hfile Hfind Hrows Hne Hfin eq_data. subst eq_data.
  pose proof (extract_rows_numeric _ _ Hrows) as Hnum.
  destruct (manual_points_outcome _ Hnum)
    as [[_ (points & Hmap & Hall)]|[Hbad _]].
  - exists points. split; [by apply (manual_run_steps _ _ _ text)|].
    split; [done|]. split; [|done].
    apply Forall2_length in Hall.
    rewrite <- Hall, manual_apply_eq_correction_map, length_map.
    apply sort_rows_length.
  - apply Exists_exists in Hbad as (r & Hin & Hr).
    apply (proj1 (Forall_forall _ _) Hfin) in Hin. congruence.
Qed.

Lemma manual_run_points_witness :
  files (Sample.world_with "page.html" "<html>") !! "page.html" = Some "<html>"
  ∧ find "table" (Sample.page Sample.measured_table)
    = Some Sample.measured_table
  ∧ Manual.extract_rows Sample.measured_table = Ok Sample.measured_rows
  ∧ Sample.measured_rows ≠ []
  ∧ Forall (λ row : raw_row, Spec.finite row.1.1 = true) Sample.measured_rows
  ∧ ∃ points : list string,
      Manual.extract_and_clean_rtings_data
        (λ _, Sample.page Sample.measured_table) "page.html" "eq.txt"
        (Sample.world_with "page.html" "<html>")
      = Steps.manual_steps Sample.measured_table Sample.measured_rows
          (Manual.apply_eq_correction (Manual.sort_rows Sample.measured_rows))
          "eq.txt" (Sample.world_with "page.html" "<html>")
      ∧ mapM Manual.format_point
          (Manual.apply_eq_correction (Manual.sort_rows Sample.measured_rows))
        = Ok points
      ∧ length points = length Sample.measured_rows
      ∧ Forall2 Spec.rendered
          (Manual.apply_eq_correction (Manual.sort_rows Sample.measured_rows))
          points.
Proof.
  assert (H : Manual.extract_rows Sample.measured_table
              = Ok Sample.measured_rows) by by vm_compute.
  assert (Hne : Sample.measured_rows ≠ []) by done.
  assert (Hfin : Forall (λ row : raw_row, Spec.finite row.1.1 = true)
                   Sample.measured_rows) by (repeat constructor).
  split; [reflexivity|]. split; [reflexivity|]. split; [exact H|].
  split; [exact Hne|]. split; [exact Hfin|].
  exact (manual_run_points (λ _, Sample.page Sample.measured_table)
           "page.html" "eq.txt" "<html>"
           (Sample.world_with "page.html" "<html>")
           Sample.measured_table Sample.measured_rows
           eq_refl eq_refl H Hne Hfin).
Defined.

Lemma no_newline_count (s : string) :
  Spec.no_newline s = true → count_char "010" s = 0.
Proof.
  induction s as [|c s IH]; simpl; [done|].
  intros [Hc Hs]%andb_true_iff. rewrite IH by done.
  by destruct (Ascii.eqb c "010"%char).
Qed.

Lemma format_line_count (str_of_float : float64 → string)
    (point : float64 * num) :
  (∀ x, Spec.no_newline (str_of_float x) = true) →
  count_char "010" (AutoExtractor.format_line str_of_float point) = 1.
Proof.
  intros Hstr. destruct point as [f g]. unfold AutoExtractor.format_line.
  rewrite !count_char_app. rewrite (no_newline_count (str_of_float f)) by done.
  assert (Spec.no_newline (AutoExtractor.str_of_num str_of_float g) = true)
    as Hg by (destruct g; [apply str_of_int_no_newline|apply Hstr]).
  by rewrite (no_newline_count _ Hg).
Qed.

Lemma format_lines_count (str_of_float : float64 → string)
    (eq_data : list (float64 * num)) :
  (∀ x, Spec.no_newline (str_of_float x) = true) →
  count_char "010"
    (String.concat EmptyString
       (map (AutoExtractor.format_line str_of_float) eq_data))
  = length eq_data.
Proof.
  intros Hstr. induction eq_data as [|point eq_data IH]; [done|].
  cbn [map length]. rewrite concat_empty_cons, count_char_app, IH.
  by rewrite format_line_count.
Qed.

(** X15. End to end, second script: when the first table yields at least
    one row, the run is the run of the script's messages and of its
    writing, by [open] and [writelines], of the lines of the corrected,
    sorted rows: exactly as many texts as there are valid rows, each with
    one line break (given that the text of a float holds none). *)
Theorem auto_run_lines (BeautifulSoup : string → node)
    (str_of_float : float64 → string)
    (html_file output_file text : string) (w : world) (table : node)
    (rows : list raw_row) :
  files w !! html_file = Some text →
  find "table" (BeautifulSoup text) = Some table →
  AutoExtractor.extract_rows table = Ok rows →
  rows ≠ [] →
  (∀ x, Spec.no_newline (str_of_float x) = true) →
  let eq_data :=
    AutoExtractor.apply_eq_correction (AutoExtractor.sort_rows rows) in
  let lines := map (AutoExtractor.format_line str_of_float) eq_data in
  AutoExtractor.extract_and_clean_rtings_data BeautifulSoup str_of_float
    html_file output_file w
  = Steps.auto_steps str_of_float table rows eq_data output_file w
  ∧ length lines = length rows
  ∧ Forall (λ line, count_char "010" line = 1) lines.
Proof.
  intros Hfile Hfind Hrows Hne Hstr eq_data lines. subst eq_data lines.
  split; [by apply (auto_run_steps _ _ _ _ text)|]. split.
  - rewrite length_map, auto_apply_eq_correction_map, length_map.
    apply sort_rows_length.
  - apply Forall_forall. intros line Hin.
    apply list_elem_of_In, in_map_iff in Hin as (point & <- & _).
    by apply format_line_count.
Qed.

Lemma auto_run_lines_witness :
  files (Sample.world_with "page.html" "<html>") !! "page.html" = Some "<html>"
  ∧ find "table" (Sample.page Sample.measured_table)
    = Some Sample.measured_table
  ∧ AutoExtractor.extract_rows Sample.measured_table = Ok Sample.measured_rows
  ∧ Sample.measured_rows ≠ []
  ∧ (∀ x : float64, Spec.no_newline ((λ _, "f") x) = true)
  ∧ AutoExtractor.extract_and_clean_rtings_data
      (λ _, Sample.page Sample.measured_table) (λ _, "f")
      "page.html" "eq.txt" (Sample.world_with "page.html" "<html>")
    = Steps.auto_steps (λ _, "f") Sample.measured_table Sample.measured_rows
        (AutoExtractor.apply_eq_correction
           (AutoExtractor.sort_rows Sample.measured_rows))
        "eq.txt" (Sample.world_with "page.html" "<html>")
  ∧ length
      (map (AutoExtractor.format_line (λ _, "f"))
         (AutoExtractor.apply_eq_correction
            (AutoExtractor.sort_rows Sample.measured_rows)))
    = length Sample.measured_rows.
Proof.
  assert (H : AutoExtractor.extract_rows Sample.measured_table
              = Ok Sample.measured_rows) by by vm_compute.
  assert (Hne : Sample.measured_rows ≠ []) by done.
  assert (Hstr : ∀ x : float64, Spec.no_newline ((λ _, "f") x) = true)
    by (intros x; reflexivity).
  split; [reflexivity|]. split; [reflexivity|]. split; [exact H|].
  split; [exact Hne|]. split; [exact Hstr|].
  destruct (auto_run_lines (λ _, Sample.page Sample.measured_table)
              (λ _, "f") "page.html" "eq.txt" "<html>"
              (Sample.world_with "page.html" "<html>")
              Sample.measured_table Sample.measured_rows
              eq_refl eq_refl H Hne Hstr) as (Hrun & Hlen & _).
  split; [exact Hrun|exact Hlen].
Defined.

(** ** The main blocks *)

Import Main.

(** X18. Answering the first question of the second script with [no], in
    any letter case and with blanks around it, ends the run by [exit]
    before any path is asked for: no further line is read and the files
    are left as they were. *)
Theorem auto_main_declined (BeautifulSoup : string → node)
    (str_of_float : float64 → string) (answer : string) (rest : list string)
    (terminal : list shown) (files : gmap string string) :
  lower (strip answer) = "no"%string →
  let r :=
    auto_main BeautifulSoup str_of_float
      (Session (answer :: rest) terminal files) in
  r.1 = SystemExit "Restart this script after saving the HTML file."
  ∧ stdin r.2 = rest
  ∧ disk r.2 = files.
Proof.
  intros Hno. unfold auto_main, input, say. cbn [stdin screen disk].
  by rewrite Hno.
Qed.

Lemma auto_main_declined_witness :
  lower (strip "  No ") = "no"%string
  ∧ (auto_main (λ _, Sample.no_table_page) (λ _, "f")
       (Session ["  No "; "page.html"] [] ∅)).1
    = SystemExit "Restart this script after saving the HTML file."
  ∧ stdin (auto_main (λ _, Sample.no_table_page) (λ _, "f")
             (Session ["  No "; "page.html"] [] ∅)).2 = ["page.html"]
  ∧ disk (auto_main (λ _, Sample.no_table_page) (λ _, "f")
            (Session ["  No "; "page.html"] [] ∅)).2 = ∅.
Proof.
  assert (H : lower (strip "  No ") = "no"%string) by by vm_compute.
  split; [exact H|].
  exact (auto_main_declined (λ _, Sample.no_table_page) (λ _, "f")
           "  No " ["page.html"] [] ∅ H).
Defined.

(** X19. After any other answer the second script reads two more lines,
    strips the blanks around each, and calls the pipeline on those two
    paths, with the banner and the three prompts on the terminal; it ends
    as that call ends. *)
Theorem auto_main_runs (BeautifulSoup : string → node)
    (str_of_float : float64 → string) (answer path name : string)
    (rest : list string) (terminal : list shown)
    (files : gmap string string) :
  lower (strip answer) ≠ "no"%string →
  auto_main BeautifulSoup str_of_float
    (Session (answer :: path :: name :: rest) terminal files)
  = call
      (AutoExtractor.extract_and_clean_rtings_data BeautifulSoup str_of_float
         (strip path) (strip name))
      (Session rest
         (terminal
          ++ [Printed (Line (newline +:+ "--- AutoEQ Script for RTINGS Data ---"
                             +:+ newline));
              Prompt "Do you already have the RTINGS HTML file? (yes/no): ";
              Prompt "Enter the path to your RTINGS HTML file: ";
              Prompt "Enter the output filename (e.g., jamesdsp_eq.txt): "])
         files).
Proof.
  intros Hno. unfold auto_main, input, say. cbn [stdin screen disk].
  rewrite (proj2 (String.eqb_neq _ _) Hno).
  by rewrite <- !app_assoc.
Qed.

Lemma auto_main_runs_witness :
  lower (strip "yes") ≠ "no"%string
  ∧ auto_main (λ _, Sample.page Sample.measured_table) (λ _, "f")
      (Session ["yes"; " page.html "; "eq.txt "] []
         {["page.html" := "<html>"]})
    = call
        (AutoExtractor.extract_and_clean_rtings_data
           (λ _, Sample.page Sample.measured_table) (λ _, "f")
           (strip " page.html ") (strip "eq.txt "))
        (Session []
           ([]
            ++ [Printed (Line (newline
                               +:+ "--- AutoEQ Script for RTINGS Data ---"
                               +:+ newline));
                Prompt "Do you already have the RTINGS HTML file? (yes/no): ";
                Prompt "Enter the path to your RTINGS HTML file: ";
                Prompt "Enter the output filename (e.g., jamesdsp_eq.txt): "])
           {["page.html" := "<html>"]}).
Proof.
  assert (H : lower (strip "yes") ≠ "no"%string) by by vm_compute.
  split; [exact H|].
  exact (auto_main_runs (λ _, Sample.page Sample.measured_table)
           (λ _, "f") "yes" " page.html " "eq.txt " [] []
           {["page.html" := "<html>"]} H).
Defined.

(** X20. The main block of the second script ends by [EOFError] exactly
    when its input runs out: at once, or after an answer other than [no]
    that fewer than two lines follow; it ends by [exit] exactly when the
    first answer is [no]; and in both cases the files are left as they
    were. *)
Theorem auto_main_stops_early (BeautifulSoup : string → node)
    (str_of_float : float64 → string) (s : session) :
  let r := auto_main BeautifulSoup str_of_float s in
  (r.1 = EOFError
   ↔ stdin s = []
     ∨ ∃ (answer : string) (rest : list string),
         stdin s = answer :: rest
         ∧ lower (strip answer) ≠ "no"%string
         ∧ length rest < 2)
  ∧ (r.1 = SystemExit "Restart this script after saving the HTML file."
     ↔ ∃ (answer : string) (rest : list string),
         stdin s = answer :: rest ∧ lower (strip answer) = "no"%string)
  ∧ (r.1 = EOFError
     ∨ r.1 = SystemExit "Restart this script after saving the HTML file." →
     disk r.2 = disk s).
Proof.
  destruct s as [lines terminal files]. unfold auto_main, input, say, call.
  destruct lines as [|answer lines]; cbn [stdin screen disk fst snd].
  { split; [split; [by left|done]|]. split; [|done].
    split; [done|]. by intros (? & ? & ? & _). }
  destruct (String.eqb (lower (strip answer)) "no") eqn:Hno.
  { apply String.eqb_eq in Hno. cbn [fst snd disk].
    split; [|split; [|done]].
    - split; [done|]. intros [?|(a & l & [= <- <-] & Hne & _)]; done.
    - split; [|done]. intros _. by exists answer, lines. }
  apply String.eqb_neq in Hno.
  destruct lines as [|path [|name lines]]; cbn [stdin screen disk fst snd].
  - split; [|split; [|done]].
    + split; [|done]. intros _. right. exists answer, []. simpl. by auto.
    + split; [done|]. by intros (a & l & [= <- <-] & Heq).
  - split; [|split; [|done]].
    + split; [|done]. intros _. right. exists answer, [path]. simpl. by auto.
    + split; [done|]. by intros (a & l & [= <- <-] & Heq).
  - destruct (AutoExtractor.extract_and_clean_rtings_data _ _ _ _ _)
      as [[[]|e] w]; cbn [fst snd].
    all: split; [|split; [|by intros [?|?]]].
    all: split; try done.
    all: try (intros [?|(a & l & [= <- <-] & _ & Hlen)];
              [done|simpl in Hlen; lia]).
    all: by intros (a & l & [= <- <-] & Heq).
Qed.

Lemma auto_main_stops_early_witness :
  (auto_main (λ _, Sample.page Sample.measured_table) (λ _, "f")
     (Session ["yes"; "page.html"] [] {["page.html" := "<html>"]})).1
  = EOFError
  ∧ disk (auto_main (λ _, Sample.page Sample.measured_table) (λ _, "f")
            (Session ["yes"; "page.html"] [] {["page.html" := "<html>"]})).2
    = {["page.html" := "<html>"]}.
Proof.
  destruct (auto_main_stops_early (λ _, Sample.page Sample.measured_table)
              (λ _, "f")
              (Session ["yes"; "page.html"] [] {["page.html" := "<html>"]}))
    as (Heof & _ & Hdisk).
  assert (H : (auto_main (λ _, Sample.page Sample.measured_table) (λ _, "f")
                 (Session ["yes"; "page.html"] []
                    {["page.html" := "<html>"]})).1 = EOFError).
  { apply Heof. right. exists "yes"%string, ["page.html"%string].
    split; [reflexivity|]. split; [by vm_compute|simpl; lia]. }
  split; [exact H|]. apply Hdisk. left. exact H.
Defined.

(** X21. When [Soundbar.html] is missing from the download folder, the
    main block of the first script ends by [FileNotFoundError]: nothing is
    shown, nothing is read and no file is touched. *)
Theorem manual_main_missing_input (BeautifulSoup : string → node)
    (s : session) :
  disk s !! input_html = None →
  manual_main BeautifulSoup s = (Uncaught FileNotFoundError, s).
Proof.
  intros Hnone. unfold manual_main, call.
  rewrite (manual_run_missing _ input_html output_txt (World [] (disk s))
             Hnone).
  cbn [console files map].
  rewrite app_nil_r. by destruct s.
Qed.

Lemma manual_main_missing_input_witness :
  disk (Session [] [] ∅) !! input_html = None
  ∧ manual_main (λ _, Sample.no_table_page) (Session [] [] ∅)
    = (Uncaught FileNotFoundError, Session [] [] ∅).
Proof.
  assert (H : disk (Session [] [] ∅) !! input_html = None) by reflexivity.
  split; [exact H|].
  exact (manual_main_missing_input (λ _, Sample.no_table_page)
           (Session [] [] ∅) H).
Defined.

(** ** Witnesses and a last fact *)

Lemma missing_input_witness :
  files (World [] ∅) !! "page.html" = None
  ∧ Manual.extract_and_clean_rtings_data (λ _, Sample.no_table_page)
      "page.html" "eq.txt" (World [] ∅)
    = (Raise FileNotFoundError, World [] ∅)
  ∧ AutoExtractor.extract_and_clean_rtings_data (λ _, Sample.no_table_page)
      (λ _, "f") "page.html" "eq.txt" (World [] ∅)
    = (Ok (), World [Line "Error: File 'page.html' not found."] ∅).
Proof.
  split; [reflexivity|].
  exact (missing_input (λ _, Sample.no_table_page) (λ _, "f")
           "page.html" "eq.txt" (World [] ∅) eq_refl).
Defined.

Lemma auto_abort_leaves_no_output_witness :
  AutoExtractor.extract_and_clean_rtings_data (λ _, Sample.no_table_page)
    (λ _, "f") "page.html" "eq.txt" (Sample.world_with "page.html" "<html>")
  = (Ok (),
     World [Line "No table found in the HTML file."]
       {["page.html" := "<html>"]})
  ∧ AutoExtractor.extract_and_clean_rtings_data
      (λ _, Sample.page Sample.header_only_table) (λ _, "f")
      "page.html" "eq.txt" (Sample.world_with "page.html" "<html>")
    = (Ok (),
       World
         [HeadersLine "Table Headers Found: "
            ["Frequency"; "Target"; "Left"; "Average"];
          Line "Error: No valid frequency response data extracted."]
         {["page.html" := "<html>"]}).
Proof.
  split.
  - apply (proj1 (auto_abort_leaves_no_output (λ _, Sample.no_table_page)
                    (λ _, "f") "page.html" "eq.txt" "<html>"
                    (Sample.world_with "page.html" "<html>") eq_refl)).
    reflexivity.
  - apply (proj2 (auto_abort_leaves_no_output
                    (λ _, Sample.page Sample.header_only_table) (λ _, "f")
                    "page.html" "eq.txt" "<html>"
                    (Sample.world_with "page.html" "<html>") eq_refl)
             Sample.header_only_table); reflexivity.
Defined.

(** X22. In the file of the second script a gain that was clamped is
    written as the integer [32] or [-32], without a decimal part, while
    every other gain is written as a float. *)
Theorem auto_clamped_line (str_of_float : float64 → string)
    (frequency difference : float64) :
  (py_le (PyInt 32) (PyFloat difference) = true →
   AutoExtractor.format_line str_of_float
     (frequency, AutoExtractor.scale_gain (PyFloat difference))
   = str_of_float frequency +:+ " " +:+ "32" +:+ newline)
  ∧ (py_le (PyFloat difference) (PyInt (-32)) = true →
     AutoExtractor.format_line str_of_float
       (frequency, AutoExtractor.scale_gain (PyFloat difference))
     = str_of_float frequency +:+ " " +:+ "-32" +:+ newline)
  ∧ (py_lt (PyInt (-32)) (PyFloat difference) = true →
     py_lt (PyFloat difference) (PyInt 32) = true →
     AutoExtractor.format_line str_of_float
       (frequency, AutoExtractor.scale_gain (PyFloat difference))
     = str_of_float frequency +:+ " " +:+ str_of_float difference
       +:+ newline).
Proof.
  unfold AutoExtractor.format_line, AutoExtractor.scale_gain, py_max, py_min.
  rewrite !py_gt_lt. split; [|split].
  - intros H. by rewrite (py_le_not_lt _ _ H).
  - intros H. by rewrite (py_le_lt_32 _ H), (py_le_not_lt _ _ H).
  - intros Hlo Hhi. by rewrite Hhi, Hlo.
Qed.

Lemma auto_clamped_line_witness :
  AutoExtractor.format_line (λ _, "f")
    (Spec.lit "20",
     AutoExtractor.scale_gain
       (PyFloat (float_sub (Spec.lit "40") (Spec.lit "-10"))))
  = "f 32" +:+ newline
  ∧ AutoExtractor.format_line (λ _, "f")
      (Spec.lit "20",
       AutoExtractor.scale_gain
         (PyFloat (float_sub (Spec.lit "-40") (Spec.lit "10"))))
    = "f -32" +:+ newline
  ∧ AutoExtractor.format_line (λ _, "f")
      (Spec.lit "20",
       AutoExtractor.scale_gain
         (PyFloat (float_sub (Spec.lit "1") (Spec.lit "4.2"))))
    = "f f" +:+ newline.
Proof.
  split; [|split].
  - apply (proj1 (auto_clamped_line (λ _, "f") (Spec.lit "20")
                    (float_sub (Spec.lit "40") (Spec.lit "-10")))).
    by vm_compute.
  - apply (proj1 (proj2 (auto_clamped_line (λ _, "f") (Spec.lit "20")
                           (float_sub (Spec.lit "-40") (Spec.lit "10"))))).
    by vm_compute.
  - apply (proj2 (proj2 (auto_clamped_line (λ _, "f") (Spec.lit "20")
                           (float_sub (Spec.lit "1") (Spec.lit "4.2")))));
      by vm_compute.
Defined.
